(** * Fraud-scoring pipeline of [src/ai/fraud_detection.py]

    A shallow embedding of [FraudDetectionEngine.extract_features], the four
    [_compute_*] sub-scorers and [FraudDetectionEngine.predict_fraud],
    followed by the properties of the scoring pipeline.

    Modelling conventions.
    - Python numbers ([int] and [float]) are exact rationals [Q]; binary64
      rounding error is not modelled.  Equality of numbers is [Qeq] ([==]).
    - Python dicts are [gmap string _]; [d.get(k, x)] is [default x (d !! k)]
      and [d[k]] raises [KeyError] on a missing key.
    - [transaction_data] is a dict of arbitrary values ([PyVal]), so the
      attribute and type errors of the built-ins applied to its entries are
      part of the model; [user_history] is [None] or a dict of numbers.
    - The wall clock and numpy's global random generator are threaded
      through an explicit [World]; exceptions are a result constructor. *)

From Stdlib Require Import QArith Qround Qabs Qminmax Lqa ZArith String Ascii List.
From Stdlib Require Import DecimalString.
From stdpp Require Import gmap strings.
Import ListNotations.

Set Warnings "-register-all".
Open Scope string_scope.

(** ** Python values and exceptions *)

Inductive PyVal : Type :=
| PyNone
| PyNum (q : Q)
| PyStr (s : string)
| PyDict (d : gmap string PyVal).

Inductive PyErr : Type :=
| ValueError
| TypeError
| AttributeError
| KeyError.

Inductive Res (A : Type) : Type :=
| Ok (a : A)
| Raise (e : PyErr).
Arguments Ok {A} a.
Arguments Raise {A} e.

(** ** The runtime the module runs on

    [np_random_beta a b] is [np.random.beta(a, b)] on numpy's global
    generator, whose state is [RngState]; [py_float_of_str] is the built-in
    [float] on a [str] argument ([None] stands for [ValueError]). *)

Class Runtime : Type := {
  RngState : Type;
  np_random_beta : Z -> Z -> RngState -> Q * RngState;
  py_float_of_str : string -> option Q
}.

(** One reading of the wall clock: [time.time()] gives [epoch_seconds],
    [datetime.now()] gives the local [hour], [weekday] and [isoformat]. *)
Record Instant : Type := {
  epoch_seconds : Q;
  hour : Z;
  weekday : Z;
  isoformat : string
}.

Record World `{Runtime} : Type := {
  rng : RngState;
  clock : nat -> Instant;
  ticks : nat
}.

(** ** State and exception monad *)

Definition M `{Runtime} (A : Type) : Type := World -> Res A * World.

Definition ret `{Runtime} {A} (a : A) : M A := fun w => (Ok a, w).

Definition bind `{Runtime} {A B} (c : M A) (k : A -> M B) : M B :=
  fun w =>
    match c w with
    | (Ok a, w') => k a w'
    | (Raise e, w') => (Raise e, w')
    end.

Notation "'let*' x ':=' c 'in' k" := (bind c (fun x => k))
  (at level 10, x name, c at level 100, k at level 200).

Definition lift `{Runtime} {A} (r : Res A) : M A := fun w => (r, w).

Definition advance `{Runtime} (w : World) : World :=
  {| rng := rng w; clock := clock w; ticks := S (ticks w) |}.

(** [datetime.now()] / [time.time()]: read the clock, which then advances. *)
Definition now `{Runtime} : M Instant :=
  fun w => (Ok (clock w (ticks w)), advance w).

Definition time_time `{Runtime} : M Q :=
  let* t := now in ret (epoch_seconds t).

Definition random_beta `{Runtime} (a b : Z) : M Q :=
  fun w => let (x, s) := np_random_beta a b (rng w) in
           (Ok x, {| rng := s; clock := clock w; ticks := ticks w |}).

(** ** Built-ins *)

(** [float(v)] *)
Definition py_float `{Runtime} (v : PyVal) : Res Q :=
  match v with
  | PyNum q => Ok q
  | PyStr s => match py_float_of_str s with
               | Some q => Ok q
               | None => Raise ValueError
               end
  | PyNone | PyDict _ => Raise TypeError
  end.

(** [d[k]] on a dict of numbers *)
Definition getitem (d : gmap string Q) (k : string) : Res Q :=
  match d !! k with
  | Some q => Ok q
  | None => Raise KeyError
  end.

(** [v.get(k)] / [v.get(k, dflt)] where [v] is whatever the caller put in
    the transaction: only a dict has a [get] attribute. *)
Definition py_get (v : PyVal) (k : string) (dflt : PyVal) : Res PyVal :=
  match v with
  | PyDict d => Ok (default dflt (d !! k))
  | _ => Raise AttributeError
  end.

(** [needle in s] on strings *)
Fixpoint is_infix (needle s : string) : bool :=
  String.prefix needle s ||
  match s with
  | EmptyString => false
  | String _ s' => is_infix needle s'
  end.

(** [needle in v]: substring test on a [str], key test on a [dict];
    [None] and numbers are not iterable. *)
Definition py_contains (needle : string) (v : PyVal) : Res bool :=
  match v with
  | PyStr s => Ok (is_infix needle s)
  | PyDict d => Ok (bool_decide (is_Some (d !! needle)))
  | PyNone | PyNum _ => Raise TypeError
  end.

(** [v in names] for a list of string literals: element-wise [==]. *)
Definition py_in_strings (v : PyVal) (names : list string) : bool :=
  match v with
  | PyStr s => bool_decide (s ∈ names)
  | _ => false
  end.

(** Truth value of [user_history]: [None] and the empty dict are false. *)
Definition truthy (user_history : option (gmap string Q)) : bool :=
  match user_history with
  | Some h => bool_decide (h ≠ ∅)
  | None => false
  end.

Definition Qltb (x y : Q) : bool :=
  match (x ?= y)%Q with Lt => true | _ => false end.

(** [max(x, y)]: the first argument unless the second is strictly larger. *)
Definition py_max (x y : Q) : Q := if Qltb x y then y else x.

(** Nearest integer, ties to the even one. *)
Definition round_half_even (x : Q) : Z :=
  let n := Qfloor x in
  match (x - inject_Z n ?= 1 # 2)%Q with
  | Lt => n
  | Gt => (n + 1)%Z
  | Eq => if Z.even n then n else (n + 1)%Z
  end.

(** [round(x, 3)] *)
Definition py_round3 (x : Q) : Q :=
  (inject_Z (round_half_even (x * 1000)) / 1000)%Q.

(** [f"{x:.0f}"]: nearest integer, ties to even, sign of [x] kept. *)
Definition format_0f (x : Q) : string :=
  let digits := NilZero.string_of_uint (N.to_uint (Z.abs_N (round_half_even x))) in
  if Qltb x 0%Q then "-" ++ digits else digits.

(** ** The fitted scaler *)

(** Modelled from the spec: the fitted parameters of
    [sklearn.preprocessing.StandardScaler], a third-party class whose code is
    not in the repository; section 3 gives them as one (mean,
    standard-deviation) pair per feature. *)
Record StandardScaler : Type := {
  mean_ : list Q;
  scale_ : list Q
}.

(** Modelled from the spec: [StandardScaler.transform], not in the
    repository; section 4.3 gives
    [vector'[i] = (vector[i] - mean[i]) / std[i]]. *)
Fixpoint standardize (v mean scale : list Q) : list Q :=
  match v, mean, scale with
  | x :: v', m :: mean', s :: scale' => ((x - m) / s)%Q :: standardize v' mean' scale'
  | _, _, _ => []
  end.

(** Modelled from the spec: [StandardScaler.transform] fails when the input
    does not have the number of fields the parameters were fitted on
    (section 4.3). *)
Definition transform (sc : StandardScaler) (v : list Q) : Res (list Q) :=
  if (length v =? length (mean_ sc))%nat && (length v =? length (scale_ sc))%nat
  then Ok (standardize v (mean_ sc) (scale_ sc))
  else Raise ValueError.

(** Modelled from the spec: the [normalize_inverse] of section 8, which the
    repository never calls: [vector[i] = vector'[i] * std[i] + mean[i]]. *)
Fixpoint unstandardize (v mean scale : list Q) : list Q :=
  match v, mean, scale with
  | x :: v', m :: mean', s :: scale' => (x * s + m)%Q :: unstandardize v' mean' scale'
  | _, _, _ => []
  end.

(** Modelled from the spec: [normalize_inverse] with the length check of
    [transform]. *)
Definition inverse_transform (sc : StandardScaler) (v : list Q) : Res (list Q) :=
  if (length v =? length (mean_ sc))%nat && (length v =? length (scale_ sc))%nat
  then Ok (unstandardize v (mean_ sc) (scale_ sc))
  else Raise ValueError.

(** ** FraudDetectionEngine *)

(** [self.model['rf']], [self.model['gb']] and [self.scaler].  A classifier
    is the map from a scaled row [x] to [predict_proba(x)[0, 1]]. *)
Record FraudDetectionEngine : Type := {
  model_rf : list Q -> Q;
  model_gb : list Q -> Q;
  scaler : StandardScaler
}.

Definition feature_columns : list string :=
  [ "transaction_amount"; "hour_of_day"; "day_of_week";
    "user_age_days"; "previous_transactions"; "avg_transaction_amount";
    "location_risk_score"; "device_risk_score"; "velocity_score";
    "behavioral_score"; "time_since_last_tx"; "amount_deviation" ].

(** The dict [user_history] when [if user_history:] takes the true branch. *)
Definition if_truthy (user_history : option (gmap string Q)) : option (gmap string Q) :=
  match user_history with
  | Some h => if truthy (Some h) then Some h else None
  | None => None
  end.

Definition _compute_location_risk `{Runtime} (transaction_data : gmap string PyVal) : M Q :=
  let location := default (PyDict ∅) (transaction_data !! "location") in
  let* country := lift (py_get location "country" PyNone) in
  if py_in_strings country ["NG"; "KE"; "GH"; "ZA"]
  then random_beta 2 8
  else random_beta 5 5.

Definition _compute_device_risk `{Runtime} (transaction_data : gmap string PyVal) : M Q :=
  let device_info := default (PyDict ∅) (transaction_data !! "deviceInfo") in
  let* user_agent := lift (py_get device_info "userAgent" (PyStr EmptyString)) in
  let* mobile := lift (py_contains "Mobile" user_agent) in
  let* android := if mobile then lift (py_contains "Android" user_agent) else ret false in
  if android
  then random_beta 2 8
  else random_beta 4 6.

Definition _compute_velocity_risk `{Runtime} (transaction_data : gmap string PyVal)
    (user_history : option (gmap string Q)) : M Q :=
  match if_truthy user_history with
  | None => ret (1 # 10)%Q
  | Some h =>
      let recent_tx_count := default 0%Q (h !! "recent_tx_count") in
      if Qltb 10 recent_tx_count
      then random_beta 8 2
      else random_beta 2 8
  end.

Definition _compute_behavioral_score `{Runtime} (transaction_data : gmap string PyVal)
    (user_history : option (gmap string Q)) : M Q :=
  match if_truthy user_history with
  | None => ret (1 # 2)%Q
  | Some h => random_beta 6 4
  end.

Definition extract_features `{Runtime} (transaction_data : gmap string PyVal)
    (user_history : option (gmap string Q)) : M (gmap string Q) :=
  let features : gmap string Q := ∅ in
  let* amount := lift (py_float (default (PyNum 0) (transaction_data !! "amount"))) in
  let features := <["transaction_amount" := amount]> features in
  let* t := now in
  let features := <["hour_of_day" := inject_Z (hour t)]> features in
  let* t := now in
  let features := <["day_of_week" := inject_Z (weekday t)]> features in
  let* features :=
    match if_truthy user_history with
    | Some h =>
        let features := <["user_age_days" := default 1%Q (h !! "account_age_days")]> features in
        let features := <["previous_transactions" := default 0%Q (h !! "transaction_count")]> features in
        let* amount := lift (getitem features "transaction_amount") in
        ret (<["avg_transaction_amount" := default amount (h !! "avg_amount")]> features)
    | None =>
        let features := <["user_age_days" := 1%Q]> features in
        let features := <["previous_transactions" := 0%Q]> features in
        let* amount := lift (getitem features "transaction_amount") in
        ret (<["avg_transaction_amount" := amount]> features)
    end in
  let* r := _compute_location_risk transaction_data in
  let features := <["location_risk_score" := r]> features in
  let* r := _compute_device_risk transaction_data in
  let features := <["device_risk_score" := r]> features in
  let* r := _compute_velocity_risk transaction_data user_history in
  let features := <["velocity_score" := r]> features in
  let* r := _compute_behavioral_score transaction_data user_history in
  let features := <["behavioral_score" := r]> features in
  let features :=
    <["time_since_last_tx" :=
        match if_truthy user_history with
        | Some h => default 24%Q (h !! "hours_since_last_tx")
        | None => 24%Q
        end]> features in
  let* amount := lift (getitem features "transaction_amount") in
  let* avg := lift (getitem features "avg_transaction_amount") in
  let features := <["amount_deviation" := Qabs (amount - avg)]> features in
  ret features.

(** [pd.DataFrame([features])[columns]]: the row of the named columns, in
    the order of [columns]; a missing column is a [KeyError]. *)
Fixpoint select_columns (features : gmap string Q) (columns : list string) : Res (list Q) :=
  match columns with
  | [] => Ok []
  | c :: columns' =>
      match getitem features c with
      | Ok x =>
          match select_columns features columns' with
          | Ok row => Ok (x :: row)
          | Raise e => Raise e
          end
      | Raise e => Raise e
      end
  end.

(** The [if / elif / else] of [predict_fraud] on the ensemble probability. *)
Definition risk_level_decision (fraud_probability : Q) : string * string :=
  if Qltb fraud_probability (3 # 10) then ("LOW", "APPROVE")
  else if Qltb fraud_probability (7 # 10) then ("MEDIUM", "REVIEW")
  else ("HIGH", "BLOCK").

Definition predict_fraud `{Runtime} (self : FraudDetectionEngine)
    (transaction_data : gmap string PyVal)
    (user_history : option (gmap string Q)) : M (gmap string PyVal) :=
  let* start_time := time_time in
  let* features := extract_features transaction_data user_history in
  let* feature_df := lift (select_columns features feature_columns) in
  let* feature_scaled := lift (transform (scaler self) feature_df) in
  let rf_prob := model_rf self feature_scaled in
  let gb_prob := model_gb self feature_scaled in
  let fraud_probability := ((rf_prob + gb_prob) / 2)%Q in
  let risk_level := fst (risk_level_decision fraud_probability) in
  let decision := snd (risk_level_decision fraud_probability) in
  let* end_time := time_time in
  let processing_time := ((end_time - start_time) * 1000)%Q in
  let* behavioral_score := lift (getitem features "behavioral_score") in
  let* location_risk_score := lift (getitem features "location_risk_score") in
  let* device_risk_score := lift (getitem features "device_risk_score") in
  let* velocity_score := lift (getitem features "velocity_score") in
  let* t := now in
  ret (<["riskScore" := PyNum (py_round3 fraud_probability)]>
      (<["riskLevel" := PyStr risk_level]>
      (<["decision" := PyStr decision]>
      (<["confidence" :=
           PyNum (py_round3 (py_max fraud_probability (1 - fraud_probability)))]>
      (<["processingTime" := PyStr (format_0f processing_time ++ "ms")]>
      (<["features" := PyDict
           (<["behavioralScore" := PyNum (py_round3 behavioral_score)]>
           (<["locationScore" := PyNum (py_round3 (1 - location_risk_score))]>
           (<["deviceScore" := PyNum (py_round3 (1 - device_risk_score))]>
           (<["velocityScore" := PyNum (py_round3 (1 - velocity_score))]> ∅))))]>
      (<["timestamp" := PyStr (isoformat t)]> ∅))))))).

(** [analyze_transaction] calls [predict_fraud] on the module's engine. *)
Definition analyze_transaction `{Runtime} (fraud_detector : FraudDetectionEngine)
    (transaction_data : gmap string PyVal)
    (user_history : option (gmap string Q)) : M (gmap string PyVal) :=
  predict_fraud fraud_detector transaction_data user_history.

(** ** Well-formed inputs (section 3 of the design, with the code's keys) *)

(** [location] is absent or a dict whose [country] is absent or a string;
    [deviceInfo] is absent or a dict whose [userAgent] is absent or a string. *)
Definition context_well_typed (transaction_data : gmap string PyVal) : bool :=
  match transaction_data !! "location" with
  | None => true
  | Some (PyDict d) =>
      match d !! "country" with
      | None | Some (PyStr _) => true
      | Some _ => false
      end
  | Some _ => false
  end &&
  match transaction_data !! "deviceInfo" with
  | None => true
  | Some (PyDict d) =>
      match d !! "userAgent" with
      | None | Some (PyStr _) => true
      | Some _ => false
      end
  | Some _ => false
  end.

(** A valid transaction also carries a numeric, non-negative [amount]. *)
Definition valid_transaction (transaction_data : gmap string PyVal) : bool :=
  match transaction_data !! "amount" with
  | Some (PyNum a) => Qle_bool 0 a
  | _ => false
  end && context_well_typed transaction_data.

(** The scaler was fitted on the twelve feature columns. *)
Definition fitted (self : FraudDetectionEngine) : bool :=
  (length (mean_ (scaler self)) =? length feature_columns)%nat &&
  (length (scale_ (scaler self)) =? length feature_columns)%nat.

(** Both classifiers return probabilities. *)
Definition probabilistic (self : FraudDetectionEngine) : Prop :=
  forall x : list Q,
    (0 <= model_rf self x <= 1)%Q /\ (0 <= model_gb self x <= 1)%Q.

(** [np.random.beta] samples lie in the unit interval. *)
Definition beta_in_unit_interval `{Runtime} : Prop :=
  forall (a b : Z) (s : RngState),
    (0 <= fst (np_random_beta a b s) <= 1)%Q.

(** ** A fixed runtime for concrete runs

    The random source replays a fixed table of samples (the state counts the
    draws); [float] on a string reads an optionally signed integer literal. *)

Definition fixed_samples : list Q :=
  [ (1234 # 10000)%Q; (1 # 4)%Q; (61234 # 100000)%Q; (3 # 10)%Q ].

Definition fixed_beta (a b : Z) (n : nat) : Q * nat :=
  (nth n fixed_samples (1 # 2)%Q, S n).

Definition integer_literal (s : string) : option Q :=
  match NilZero.int_of_string s with
  | Some i => Some (inject_Z (Z.of_int i))
  | None => None
  end.

#[local] Instance fixed_runtime : Runtime := {|
  RngState := nat;
  np_random_beta := fixed_beta;
  py_float_of_str := integer_literal
|}.

Definition fixed_clock (n : nat) : Instant := {|
  epoch_seconds := (1700000000 + inject_Z (Z.of_nat n) * (3 # 1000))%Q;
  hour := 14;
  weekday := 2;
  isoformat := "2023-11-14T14:13:20"
|}.

Definition fixed_world : World := {| rng := 0%nat; clock := fixed_clock; ticks := 0 |}.

Definition unit_scaler : StandardScaler := {|
  mean_ := repeat 0%Q 12;
  scale_ := repeat 1%Q 12
|}.

(** Classifiers that answer 0.8 and 0.4 whatever the row. *)
Definition engine_08_04 : FraudDetectionEngine := {|
  model_rf := fun _ => (8 # 10)%Q;
  model_gb := fun _ => (4 # 10)%Q;
  scaler := unit_scaler
|}.

(** Classifiers that both answer 0.1234. *)
Definition engine_01234 : FraudDetectionEngine := {|
  model_rf := fun _ => (1234 # 10000)%Q;
  model_gb := fun _ => (1234 # 10000)%Q;
  scaler := unit_scaler
|}.

Definition tx_negative : gmap string PyVal :=
  {[ "amount" := PyNum (-50) ]}.

Definition tx_no_amount : gmap string PyVal :=
  {[ "type" := PyStr "transfer" ]}.

(** The transaction and history of the module's [__main__] block. *)
Definition test_transaction : gmap string PyVal :=
  <["amount" := PyNum 1000]>
  (<["type" := PyStr "transfer"]>
  (<["timestamp" := PyStr "2023-11-14T14:13:19"]>
  (<["location" := PyDict {[ "country" := PyStr "NG" ]}]>
  (<["deviceInfo" := PyDict {[ "userAgent" := PyStr "Mozilla/5.0 (Mobile; Android)" ]}]> ∅)))).

Definition test_history : gmap string Q :=
  <["account_age_days" := 30%Q]>
  (<["transaction_count" := 15%Q]>
  (<["avg_amount" := 500%Q]>
  (<["recent_tx_count" := 2%Q]>
  (<["hours_since_last_tx" := 6%Q]> ∅)))).

(** ** The two dicts the engine builds, as functions of their entries *)

(** [user_history.get(key, dflt) if user_history else dflt] *)
Definition history_get (user_history : option (gmap string Q)) (key : string) (dflt : Q) : Q :=
  match if_truthy user_history with
  | Some h => default dflt (h !! key)
  | None => dflt
  end.

(** The dict [extract_features] returns, in its order of insertion. *)
Definition features_dict
    (amount hour_of_day day_of_week user_age_days previous_transactions
     avg_amount location device velocity behavioral time_since_last_tx : Q) : gmap string Q :=
  <["amount_deviation" := Qabs (amount - avg_amount)]>
  (<["time_since_last_tx" := time_since_last_tx]>
  (<["behavioral_score" := behavioral]>
  (<["velocity_score" := velocity]>
  (<["device_risk_score" := device]>
  (<["location_risk_score" := location]>
  (<["avg_transaction_amount" := avg_amount]>
  (<["previous_transactions" := previous_transactions]>
  (<["user_age_days" := user_age_days]>
  (<["day_of_week" := day_of_week]>
  (<["hour_of_day" := hour_of_day]>
  (<["transaction_amount" := amount]> ∅))))))))))).

(** The dict [predict_fraud] returns. *)
Definition score_dict
    (fraud_probability processing_time behavioral location device velocity : Q)
    (timestamp : string) : gmap string PyVal :=
  <["riskScore" := PyNum (py_round3 fraud_probability)]>
  (<["riskLevel" := PyStr (fst (risk_level_decision fraud_probability))]>
  (<["decision" := PyStr (snd (risk_level_decision fraud_probability))]>
  (<["confidence" :=
       PyNum (py_round3 (py_max fraud_probability (1 - fraud_probability)))]>
  (<["processingTime" := PyStr (format_0f processing_time ++ "ms")]>
  (<["features" := PyDict
       (<["behavioralScore" := PyNum (py_round3 behavioral)]>
       (<["locationScore" := PyNum (py_round3 (1 - location))]>
       (<["deviceScore" := PyNum (py_round3 (1 - device))]>
       (<["velocityScore" := PyNum (py_round3 (1 - velocity))]> ∅))))]>
  (<["timestamp" := PyStr timestamp]> ∅)))))).

(** The ensemble probability on a scaled row: [(rf_prob + gb_prob) / 2]. *)
Definition ensemble_probability (self : FraudDetectionEngine) (feature_scaled : list Q) : Q :=
  ((model_rf self feature_scaled + model_gb self feature_scaled) / 2)%Q.

(** Accessors for the numeric entries of a returned dict. *)
Definition number_at (d : gmap string PyVal) (k : string) : option Q :=
  match d !! k with
  | Some (PyNum q) => Some q
  | _ => None
  end.

Definition sub_score (d : gmap string PyVal) (k : string) : option Q :=
  match d !! "features" with
  | Some (PyDict fs) => number_at fs k
  | _ => None
  end.

(** What the fixed runs return.  Without history the random source is drawn
    twice (location 0.1234, device 0.25) and the clock is read five times;
    with the test history it is drawn four times (velocity 0.61234,
    behavioural 0.3).  Three clock readings, 3 ms apart, separate the two
    [time.time()] calls. *)
Definition world_after (draws : nat) : World :=
  {| rng := draws; clock := fixed_clock; ticks := 5 |}.

Definition result_negative : gmap string PyVal :=
  score_dict (6 # 10) 9 (1 # 2) (1234 # 10000) (1 # 4) (1 # 10) "2023-11-14T14:13:20".

Definition result_no_amount : gmap string PyVal :=
  score_dict (1234 # 10000) 9 (1 # 2) (1234 # 10000) (1 # 4) (1 # 10) "2023-11-14T14:13:20".

Definition result_test : gmap string PyVal :=
  score_dict (6 # 10) 9 (3 # 10) (1234 # 10000) (1 # 4) (61234 # 100000) "2023-11-14T14:13:20".

Definition features_test : gmap string Q :=
  features_dict 1000 14 2 30 15 500 (1234 # 10000) (1 # 4) (61234 # 100000) (3 # 10) 6.

(** A number with at most three decimals: a whole number of thousandths. *)
Definition three_decimals (x : Q) : Prop :=
  exists k : Z, (x == inject_Z k / 1000)%Q.

(** [y] is [x] rounded to three decimals. *)
Definition rounded_to_3 (x y : Q) : Prop :=
  three_decimals y /\ (Qabs (x - y) <= 1 # 2000)%Q.

(** ** Notions used by the further properties *)

(** The exception the entries of [transaction_data] provoke, in the order in
    which [extract_features] reaches them: [float] of the amount, [.get] on
    [location], then [.get] on [deviceInfo] and [in] on its [userAgent]. *)
Definition amount_error `{Runtime} (transaction_data : gmap string PyVal) : option PyErr :=
  match transaction_data !! "amount" with
  | None | Some (PyNum _) => None
  | Some (PyStr s) =>
      match py_float_of_str s with
      | Some _ => None
      | None => Some ValueError
      end
  | Some PyNone | Some (PyDict _) => Some TypeError
  end.

Definition location_error (transaction_data : gmap string PyVal) : option PyErr :=
  match transaction_data !! "location" with
  | None | Some (PyDict _) => None
  | Some _ => Some AttributeError
  end.

Definition device_error (transaction_data : gmap string PyVal) : option PyErr :=
  match transaction_data !! "deviceInfo" with
  | None => None
  | Some (PyDict d) =>
      match d !! "userAgent" with
      | None | Some (PyStr _) | Some (PyDict _) => None
      | Some PyNone | Some (PyNum _) => Some TypeError
      end
  | Some _ => Some AttributeError
  end.

Definition input_error `{Runtime} (transaction_data : gmap string PyVal) : option PyErr :=
  match amount_error transaction_data with
  | Some e => Some e
  | None =>
      match location_error transaction_data with
      | Some e => Some e
      | None => device_error transaction_data
      end
  end.

(** The country of the transaction is one of the four listed ones. *)
Definition listed_country (transaction_data : gmap string PyVal) : bool :=
  match transaction_data !! "location" with
  | Some (PyDict d) =>
      match d !! "country" with
      | Some (PyStr s) => bool_decide (s ∈ ["NG"; "KE"; "GH"; "ZA"])
      | _ => false
      end
  | _ => false
  end.

(** How severe a risk level is. *)
Definition severity (risk_level : string) : nat :=
  if String.eqb risk_level "LOW" then 0
  else if String.eqb risk_level "MEDIUM" then 1
  else 2.

(** [n] is the integer nearest to [x], the even one of the two at a tie. *)
Definition nearest_even (x : Q) (n : Z) : Prop :=
  (inject_Z n - (1 # 2) < x < inject_Z n + (1 # 2))%Q \/
  ((x == inject_Z n - (1 # 2) \/ x == inject_Z n + (1 # 2))%Q /\ Z.even n = true).

(** A computation that neither reads nor changes the clock, whatever its
    outcome. *)
Definition keeps_clock `{Runtime} {A} (c : M A) : Prop :=
  forall w r w', c w = (r, w') -> clock w' = clock w /\ ticks w' = ticks w.

(** Decimal digits of a natural number. *)
Definition decimal (n : N) : string := NilZero.string_of_uint (N.to_uint n).

(** The text [_compute_device_risk] searches: the [userAgent] string, the
    empty string when [deviceInfo] or [userAgent] is missing; [None] when the
    entry is not a string. *)
Definition user_agent_text (transaction_data : gmap string PyVal) : option string :=
  match transaction_data !! "deviceInfo" with
  | None => Some EmptyString
  | Some (PyDict d) =>
      match d !! "userAgent" with
      | None => Some EmptyString
      | Some (PyStr s) => Some s
      | Some _ => None
      end
  | Some _ => None
  end.

(** [needle] occurs in [s]. *)
Definition occurs_in (needle s : string) : Prop :=
  exists pre post, s = pre ++ needle ++ post.

(** Transactions for concrete runs of the failing paths. *)
Definition tx_null_location : gmap string PyVal :=
  <["amount" := PyNum 20]> (<["location" := PyNone]> ∅).

Definition tx_null_user_agent : gmap string PyVal :=
  <["amount" := PyNum 20]> (<["deviceInfo" := PyDict {[ "userAgent" := PyNone ]}]> ∅).


(** A history that only knows the recent transaction count. *)
Definition history_recent (n : Q) : gmap string Q :=
  {[ "recent_tx_count" := n ]}.

(** A clock that runs backwards by 3 ms per reading. *)
Definition backward_clock (n : nat) : Instant := {|
  epoch_seconds := (1700000000 - inject_Z (Z.of_nat n) * (3 # 1000))%Q;
  hour := 14;
  weekday := 2;
  isoformat := "2023-11-14T14:13:20"
|}.

Definition backward_world : World := {| rng := 0%nat; clock := backward_clock; ticks := 0 |}.

(** Classifiers that both answer 0.2996. *)
Definition engine_02996 : FraudDetectionEngine := {|
  model_rf := fun _ => (2996 # 10000)%Q;
  model_gb := fun _ => (2996 # 10000)%Q;
  scaler := unit_scaler
|}.

(** What extraction returns on the fixed world, started at its first tick,
    for the negative amount without history and for the test transaction with
    [history_recent 12]. *)
Definition world_extracted (draws : nat) : World :=
  {| rng := draws; clock := fixed_clock; ticks := 2 |}.

Definition features_negative : gmap string Q :=
  features_dict (-50) 14 2 1 0 (-50) (1234 # 10000) (1 # 4) (1 # 10) (1 # 2) 24.

Definition features_partial : gmap string Q :=
  features_dict 1000 14 2 1 0 1000 (1234 # 10000) (1 # 4) (61234 # 100000) (3 # 10) 24.

(** What the run on [backward_world] and the run of [engine_02996] return. *)
Definition result_backward : gmap string PyVal :=
  score_dict (6 # 10) (-9) (1 # 2) (1234 # 10000) (1 # 4) (1 # 10) "2023-11-14T14:13:20".

Definition result_02996 : gmap string PyVal :=
  score_dict (2996 # 10000) 9 (1 # 2) (1234 # 10000) (1 # 4) (1 # 10) "2023-11-14T14:13:20".

(** ** Where exact rationals and binary64 agree

    Numbers are exact rationals here, while the code computes in binary64 and
    the classifiers read their input as float32.  The predicates below name
    the inputs on which the two agree, for the statements that promise a
    successful call or an exact value. *)

(** The largest finite binary64 and float32 values. *)
Definition float_max : Q := inject_Z (2 ^ 1024 - 2 ^ 971).

Definition float32_max : Q := inject_Z (2 ^ 128 - 2 ^ 104).

(** [float] accepts a number of this size: no [OverflowError]. *)
Definition in_float_range (q : Q) : bool := Qle_bool (Qabs q) float_max.

Definition in_float32_range (q : Q) : bool := Qle_bool (Qabs q) float32_max.

(** [q] is a binary64 value, so [float(q)] is [q] itself. *)
Definition binary64 (q : Q) : Prop :=
  exists m e : Z,
    (Z.abs m < 2 ^ 53)%Z /\ (-1074 <= e <= 971)%Z /\ (q == inject_Z m * 2 ^ e)%Q.

(** A whole number small enough for differences of two such to be exact. *)
Definition whole_below_2_52 (q : Q) : Prop :=
  exists n : Z, (Z.abs n <= 2 ^ 52)%Z /\ (q == inject_Z n)%Q.

(** Every value of the history is within binary64 range. *)
Definition history_in_float_range (user_history : option (gmap string Q)) : Prop :=
  forall (h : gmap string Q) (k : string) (v : Q),
    user_history = Some h -> h !! k = Some v -> in_float_range v = true.

(** A numeric [amount] is within binary64 range. *)
Definition amount_in_float_range (transaction_data : gmap string PyVal) : bool :=
  match transaction_data !! "amount" with
  | Some (PyNum a) => in_float_range a
  | _ => true
  end.

(** The row, its centred values and its scaled values are within binary64
    range, and the scaled values within the float32 range the classifiers
    accept. *)
Fixpoint row_in_range (v mean scale : list Q) : bool :=
  match v, mean, scale with
  | x :: v', m :: mean', s :: scale' =>
      in_float_range x && in_float_range (x - m) &&
      in_float32_range ((x - m) / s) && row_in_range v' mean' scale'
  | _, _, _ => true
  end.

(** [x] is at least a millionth away from every number with the decimals
    [...d5] after the third place, where rounding to three decimals tips
    over. *)
Definition clear_of_ties (x : Q) : bool :=
  Qle_bool (1 # 1000)
    (Qabs (x * 1000 - inject_Z (Qfloor (x * 1000)) - (1 # 2))).

(** A transaction stamped on another day, for the run on the fixed clock. *)
Definition test_transaction_1999 : gmap string PyVal :=
  <["timestamp" := PyStr "1999-12-31T23:59:59"]> test_transaction.

Definition features_cold_test : gmap string Q :=
  features_dict 1000 14 2 1 0 1000 (1234 # 10000) (1 # 4) (1 # 10) (1 # 2) 24.

(** * Properties *)

(** ** Comparison and rounding *)

Example py_round3_examples :
  (py_round3 (8766 # 10000) == 877 # 1000)%Q /\
  (py_round3 (5 # 10000) == 0)%Q /\
  (py_round3 (15 # 10000) == 2 # 1000)%Q /\
  (py_round3 (- (12345 # 10000)) == - (1234 # 1000))%Q.
Proof. repeat split; reflexivity. Qed.

Example format_0f_examples :
  format_0f (25 # 2) = "12" /\ format_0f (27 # 2) = "14" /\
  format_0f (- (4 # 10)) = "-0" /\ format_0f (12345 # 10) = "1234".
Proof. repeat split; reflexivity. Qed.

Example py_contains_examples :
  py_contains "Mobile" (PyStr "Mozilla/5.0 (Mobile; Android)") = Ok true /\
  py_contains "Android" (PyStr "Mozilla/5.0 (Windows NT 10.0)") = Ok false /\
  py_contains "Mobile" (PyStr EmptyString) = Ok false /\
  py_contains "Mobile" PyNone = Raise TypeError.
Proof. repeat split; reflexivity. Qed.

Example range_examples :
  in_float_range (-50) = true /\ in_float_range (inject_Z (10 ^ 400)) = false /\
  in_float32_range (inject_Z (10 ^ 39)) = false /\
  clear_of_ties (1234 # 10000) = true /\ clear_of_ties (1175 # 10000) = false /\
  clear_of_ties (15 # 10000) = false /\ clear_of_ties (1 # 2) = true.
Proof. repeat split; reflexivity. Qed.

(** Division by the constants of the module, put in the form [lra] reads. *)
Ltac qlra :=
  unfold Qdiv in *;
  change (/ 1000)%Q with (1 # 1000)%Q in *;
  change (/ 2)%Q with (1 # 2)%Q in *;
  lra.

Lemma Qltb_lt (x y : Q) : Qltb x y = true <-> (x < y)%Q.
Proof.
  unfold Qltb. rewrite Qlt_alt.
  destruct (x ?= y)%Q; split; congruence.
Qed.

Lemma Qltb_ge (x y : Q) : Qltb x y = false <-> (y <= x)%Q.
Proof.
  split; intros Hxy.
  - apply Qnot_lt_le. intros Hlt. apply Qltb_lt in Hlt. congruence.
  - destruct (Qltb x y) eqn:E; [|reflexivity].
    apply Qltb_lt in E. exfalso. apply (Qlt_not_le _ _ E Hxy).
Qed.

Lemma Qltb_comp (x x' y y' : Q) : (x == x')%Q -> (y == y')%Q -> Qltb x y = Qltb x' y'.
Proof. intros Hx Hy. unfold Qltb. now rewrite Hx, Hy. Qed.

Lemma py_max_spec (x y : Q) : (x <= py_max x y /\ y <= py_max x y)%Q.
Proof.
  unfold py_max. destruct (Qltb x y) eqn:E.
  - apply Qltb_lt in E. lra.
  - apply Qltb_ge in E. lra.
Qed.

Lemma py_max_cases (x y : Q) : py_max x y = x \/ py_max x y = y.
Proof. unfold py_max. destruct (Qltb x y); auto. Qed.

Lemma round_half_even_floor (x : Q) :
  round_half_even x = Qfloor x \/
  (round_half_even x = (Qfloor x + 1)%Z /\ (1 # 2 <= x - inject_Z (Qfloor x))%Q).
Proof.
  unfold round_half_even.
  destruct (x - inject_Z (Qfloor x) ?= 1 # 2)%Q eqn:E.
  - apply Qeq_alt in E. destruct (Z.even (Qfloor x)); [now left|right].
    split; [reflexivity|lra].
  - now left.
  - apply Qgt_alt in E. right. split; [reflexivity|lra].
Qed.

(** The rounded value is within one half of the argument. *)
Lemma round_half_even_near (x : Q) :
  (Qabs (x - inject_Z (round_half_even x)) <= 1 # 2)%Q.
Proof.
  pose proof (Qfloor_le x) as Hlo. pose proof (Qlt_floor x) as Hhi.
  rewrite inject_Z_plus in Hhi. change (inject_Z 1) with 1%Q in Hhi.
  apply Qabs_Qle_condition.
  unfold round_half_even.
  destruct (x - inject_Z (Qfloor x) ?= 1 # 2)%Q eqn:E.
  - apply Qeq_alt in E. destruct (Z.even (Qfloor x)).
    + lra.
    + rewrite inject_Z_plus. change (inject_Z 1) with 1%Q. lra.
  - apply Qlt_alt in E. lra.
  - apply Qgt_alt in E. rewrite inject_Z_plus. change (inject_Z 1) with 1%Q. lra.
Qed.

Lemma round_half_even_ge (k : Z) (x : Q) :
  (inject_Z k <= x)%Q -> (k <= round_half_even x)%Z.
Proof.
  intros Hk.
  assert (k <= Qfloor x)%Z as Hf.
  { rewrite <- (Qfloor_Z k). now apply Qfloor_resp_le. }
  destruct (round_half_even_floor x) as [-> | [-> _]]; lia.
Qed.

Lemma round_half_even_le (k : Z) (x : Q) :
  (x <= inject_Z k)%Q -> (round_half_even x <= k)%Z.
Proof.
  intros Hk.
  assert (Qfloor x <= k)%Z as Hf.
  { rewrite <- (Qfloor_Z k). now apply Qfloor_resp_le. }
  destruct (round_half_even_floor x) as [-> | [-> Hhalf]]; [lia|].
  destruct (Z.eq_dec (Qfloor x) k) as [Heq | Hne]; [|lia].
  exfalso. rewrite Heq in Hhalf. lra.
Qed.

Lemma round_half_even_comp (x y : Q) :
  (x == y)%Q -> round_half_even x = round_half_even y.
Proof.
  intros Hxy. unfold round_half_even.
  rewrite (Qfloor_comp _ _ Hxy).
  assert (x - inject_Z (Qfloor y) == y - inject_Z (Qfloor y))%Q as -> by lra.
  reflexivity.
Qed.

(** [round(x, 3)] is a whole number of thousandths ... *)
Lemma py_round3_thousandths (x : Q) :
  exists k : Z, (py_round3 x == inject_Z k / 1000)%Q.
Proof. exists (round_half_even (x * 1000)). reflexivity. Qed.

(** ... at most half a thousandth away from [x]. *)
Lemma py_round3_near (x : Q) : (Qabs (x - py_round3 x) <= 1 # 2000)%Q.
Proof.
  pose proof (round_half_even_near (x * 1000)) as H.
  apply Qabs_Qle_condition in H. apply Qabs_Qle_condition.
  unfold py_round3.
  set (n := inject_Z (round_half_even (x * 1000))) in *.
  split; qlra.
Qed.

(** Rounding keeps a value between two whole numbers of thousandths. *)
Lemma py_round3_between (lo hi : Z) (x : Q) :
  (inject_Z lo / 1000 <= x <= inject_Z hi / 1000)%Q ->
  (inject_Z lo / 1000 <= py_round3 x <= inject_Z hi / 1000)%Q.
Proof.
  intros [Hlo Hhi]. unfold py_round3.
  assert (lo <= round_half_even (x * 1000))%Z as H1
    by (apply round_half_even_ge; qlra).
  assert (round_half_even (x * 1000) <= hi)%Z as H2
    by (apply round_half_even_le; qlra).
  rewrite Zle_Qle in H1, H2. qlra.
Qed.

Lemma py_round3_unit (x : Q) : (0 <= x <= 1)%Q -> (0 <= py_round3 x <= 1)%Q.
Proof.
  intros Hx. pose proof (py_round3_between 0 1000 x) as H.
  assert (inject_Z 0 / 1000 == 0)%Q as E1 by reflexivity.
  assert (inject_Z 1000 / 1000 == 1)%Q as E2 by reflexivity.
  rewrite E1, E2 in H. now apply H.
Qed.

Lemma py_round3_upper_half (x : Q) : (1 # 2 <= x <= 1)%Q -> (1 # 2 <= py_round3 x <= 1)%Q.
Proof.
  intros Hx. pose proof (py_round3_between 500 1000 x) as H.
  assert (inject_Z 500 / 1000 == 1 # 2)%Q as E1 by reflexivity.
  assert (inject_Z 1000 / 1000 == 1)%Q as E2 by reflexivity.
  rewrite E1, E2 in H. now apply H.
Qed.

Lemma py_round3_comp (x y : Q) : (x == y)%Q -> py_round3 x = py_round3 y.
Proof.
  intros Hxy. unfold py_round3.
  rewrite (round_half_even_comp (x * 1000) (y * 1000)); [reflexivity|].
  now rewrite Hxy.
Qed.

Lemma py_round3_rounds (x : Q) : rounded_to_3 x (py_round3 x).
Proof. split; [apply py_round3_thousandths | apply py_round3_near]. Qed.

Lemma py_max_comp (x x' y y' : Q) :
  (x == x')%Q -> (y == y')%Q -> (py_max x y == py_max x' y')%Q.
Proof.
  intros Hx Hy. unfold py_max. rewrite (Qltb_comp x x' y y' Hx Hy).
  now destruct (Qltb x' y').
Qed.


(** ** The scaler *)

Lemma standardize_lookup (v mean scale : list Q) (i : nat) (x m s : Q) :
  v !! i = Some x -> mean !! i = Some m -> scale !! i = Some s ->
  standardize v mean scale !! i = Some ((x - m) / s)%Q.
Proof.
  revert mean scale i.
  induction v as [|x0 v IH]; intros [|m0 mean] [|s0 scale] [|i]; try discriminate.
  - now intros [= ->] [= ->] [= ->].
  - cbn. apply IH.
Qed.

Lemma standardize_length (v mean scale : list Q) :
  length v = length mean -> length v = length scale ->
  length (standardize v mean scale) = length v.
Proof.
  revert mean scale.
  induction v as [|x v IH]; intros [|m mean] [|s scale]; try discriminate; auto.
  cbn. intros [= E1] [= E2]. f_equal. now apply IH.
Qed.

Lemma unstandardize_length (v mean scale : list Q) :
  length v = length mean -> length v = length scale ->
  length (unstandardize v mean scale) = length v.
Proof.
  revert mean scale.
  induction v as [|x v IH]; intros [|m mean] [|s scale]; try discriminate; auto.
  cbn. intros [= E1] [= E2]. f_equal. now apply IH.
Qed.

Lemma standardize_unstandardize (v mean scale : list Q) :
  length v = length mean -> length v = length scale ->
  Forall (fun s => ~ (s == 0)%Q) scale ->
  Forall2 Qeq (standardize (unstandardize v mean scale) mean scale) v.
Proof.
  revert mean scale.
  induction v as [|x v IH]; intros [|m mean] [|s scale]; try discriminate.
  - constructor.
  - cbn. intros [= E1] [= E2] Hnz.
    apply Forall_cons in Hnz as [Hs Hnz].
    constructor; [|now apply IH].
    field. exact Hs.
Qed.

(** ** Running monadic code *)

Section Pipeline.
Context `{RT : Runtime}.
Implicit Types (w : World) (transaction_data : gmap string PyVal).
Implicit Types (user_history : option (gmap string Q)) (features : gmap string Q).

Lemma bind_ok {A B} (c : M A) (k : A -> M B) w b w' :
  bind c k w = (Ok b, w') <->
  exists a w1, c w = (Ok a, w1) /\ k a w1 = (Ok b, w').
Proof.
  unfold bind. split.
  - destruct (c w) as [[a|e] w1]; [eauto | discriminate].
  - intros (a & w1 & -> & Hk). exact Hk.
Qed.

Lemma bind_run {A B} (c : M A) (k : A -> M B) w a w1 :
  c w = (Ok a, w1) -> bind c k w = k a w1.
Proof. unfold bind. now intros ->. Qed.

Lemma lift_ok {A} (r : Res A) w a w' :
  lift r w = (Ok a, w') <-> r = Ok a /\ w' = w.
Proof. unfold lift. split; [intros [= -> ->] | intros [-> ->]]; auto. Qed.

Lemma ret_ok {A} (a a' : A) w w' :
  ret a w = (Ok a', w') <-> a' = a /\ w' = w.
Proof. unfold ret. split; [intros [= -> ->] | intros [-> ->]]; auto. Qed.

Lemma getitem_insert_eq features k x : getitem (<[k := x]> features) k = Ok x.
Proof. unfold getitem. now rewrite lookup_insert_eq. Qed.

Lemma getitem_insert_ne features k k' x :
  k <> k' -> getitem (<[k := x]> features) k' = getitem features k'.
Proof. intros Hne. unfold getitem. now rewrite lookup_insert_ne. Qed.

Lemma getitem_ok features k x : getitem features k = Ok x <-> features !! k = Some x.
Proof. unfold getitem. destruct (features !! k); split; congruence. Qed.

End Pipeline.

(** Reads [features[k]] off a dict given by its insertions. *)
Ltac getitem_insert :=
  repeat (rewrite getitem_insert_ne by discriminate);
  rewrite getitem_insert_eq.

Ltac lookup_insert :=
  repeat (rewrite lookup_insert_ne by discriminate);
  first [rewrite lookup_insert_eq | rewrite lookup_empty].

(** ** Feature extraction *)

Section Extraction.
Context `{RT : Runtime}.
Implicit Types (w : World) (transaction_data : gmap string PyVal).
Implicit Types (user_history : option (gmap string Q)) (features : gmap string Q).

Lemma random_beta_run (a b : Z) w :
  random_beta a b w =
    (Ok (fst (np_random_beta a b (rng w))),
     {| rng := snd (np_random_beta a b (rng w)); clock := clock w; ticks := ticks w |}).
Proof. unfold random_beta. now destruct (np_random_beta a b (rng w)). Qed.

Lemma random_beta_returns (a b : Z) w : exists x w', random_beta a b w = (Ok x, w').
Proof. rewrite random_beta_run. eauto. Qed.

Lemma random_beta_unit (a b : Z) w x w' :
  beta_in_unit_interval -> random_beta a b w = (Ok x, w') -> (0 <= x <= 1)%Q.
Proof. intros Hu. rewrite random_beta_run. intros [= <- _]. apply Hu. Qed.

(** The four sub-scores lie in the unit interval. *)
Lemma location_risk_unit transaction_data w x w' :
  beta_in_unit_interval ->
  _compute_location_risk transaction_data w = (Ok x, w') -> (0 <= x <= 1)%Q.
Proof.
  intros Hu. unfold _compute_location_risk.
  intros (c & w1 & _ & Hr)%bind_ok.
  destruct (py_in_strings c _); eapply random_beta_unit; eauto.
Qed.

Lemma device_risk_unit transaction_data w x w' :
  beta_in_unit_interval ->
  _compute_device_risk transaction_data w = (Ok x, w') -> (0 <= x <= 1)%Q.
Proof.
  intros Hu. unfold _compute_device_risk.
  intros (ua & w1 & _ & (m & w2 & _ & (a & w3 & _ & Hr)%bind_ok)%bind_ok)%bind_ok.
  destruct a; eapply random_beta_unit; eauto.
Qed.

Lemma velocity_risk_unit transaction_data user_history w x w' :
  beta_in_unit_interval ->
  _compute_velocity_risk transaction_data user_history w = (Ok x, w') -> (0 <= x <= 1)%Q.
Proof.
  intros Hu. unfold _compute_velocity_risk.
  destruct (if_truthy user_history).
  - destruct (Qltb _ _); intros Hr; eapply random_beta_unit; eauto.
  - intros [-> _]%ret_ok. lra.
Qed.

Lemma behavioral_score_unit transaction_data user_history w x w' :
  beta_in_unit_interval ->
  _compute_behavioral_score transaction_data user_history w = (Ok x, w') -> (0 <= x <= 1)%Q.
Proof.
  intros Hu. unfold _compute_behavioral_score.
  destruct (if_truthy user_history).
  - intros Hr; eapply random_beta_unit; eauto.
  - intros [-> _]%ret_ok. lra.
Qed.

(** The sub-scorers cannot fail on a well-typed transaction. *)
Lemma location_risk_returns transaction_data w :
  context_well_typed transaction_data = true ->
  exists x w', _compute_location_risk transaction_data w = (Ok x, w').
Proof.
  unfold context_well_typed, _compute_location_risk.
  intros [Hl _]%andb_prop.
  destruct (transaction_data !! "location") as [[| | |d]|]; try discriminate; simpl;
    (erewrite bind_run by reflexivity);
    destruct (py_in_strings _ _); apply random_beta_returns.
Qed.

Lemma device_risk_returns transaction_data w :
  context_well_typed transaction_data = true ->
  exists x w', _compute_device_risk transaction_data w = (Ok x, w').
Proof.
  unfold context_well_typed, _compute_device_risk.
  intros [_ Hd]%andb_prop.
  assert (exists s, py_get (default (PyDict ∅) (transaction_data !! "deviceInfo"))
                      "userAgent" (PyStr EmptyString) = Ok (PyStr s)) as [s Hs].
  { destruct (transaction_data !! "deviceInfo") as [[| | |d]|]; try discriminate; simpl.
    - destruct (d !! "userAgent") as [[| | |]|]; try discriminate; simpl; eauto.
    - rewrite lookup_empty. simpl. eauto. }
  rewrite Hs.
  erewrite bind_run by reflexivity. simpl.
  erewrite bind_run by reflexivity.
  destruct (is_infix "Mobile" s).
  - erewrite bind_run by reflexivity.
    destruct (is_infix "Android" s); apply random_beta_returns.
  - erewrite bind_run by reflexivity. apply random_beta_returns.
Qed.

Lemma velocity_risk_returns transaction_data user_history w :
  exists x w', _compute_velocity_risk transaction_data user_history w = (Ok x, w').
Proof.
  unfold _compute_velocity_risk.
  destruct (if_truthy user_history).
  - destruct (Qltb _ _); apply random_beta_returns.
  - unfold ret. eauto.
Qed.

Lemma behavioral_score_returns transaction_data user_history w :
  exists x w', _compute_behavioral_score transaction_data user_history w = (Ok x, w').
Proof.
  unfold _compute_behavioral_score.
  destruct (if_truthy user_history).
  - apply random_beta_returns.
  - unfold ret. eauto.
Qed.

(** What a successful extraction computed: the amount is [float] of the
    [amount] entry (0 when absent), hour and weekday are two successive clock
    readings, and the four scores are the sub-scorers' results, in the order
    location, device, velocity, behavioural. *)
Lemma extract_features_inv transaction_data user_history w features w' :
  extract_features transaction_data user_history w = (Ok features, w') ->
  exists amount location device velocity behavioral wl wd wv,
    py_float (default (PyNum 0) (transaction_data !! "amount")) = Ok amount /\
    _compute_location_risk transaction_data (advance (advance w)) = (Ok location, wl) /\
    _compute_device_risk transaction_data wl = (Ok device, wd) /\
    _compute_velocity_risk transaction_data user_history wd = (Ok velocity, wv) /\
    _compute_behavioral_score transaction_data user_history wv = (Ok behavioral, w') /\
    features =
      features_dict amount
        (inject_Z (hour (clock w (ticks w))))
        (inject_Z (weekday (clock w (S (ticks w)))))
        (history_get user_history "account_age_days" 1)
        (history_get user_history "transaction_count" 0)
        (history_get user_history "avg_amount" amount)
        location device velocity behavioral
        (history_get user_history "hours_since_last_tx" 24).
Proof.
  unfold extract_features.
  intros (amount & w0 & [Ha ->]%lift_ok & H1)%bind_ok.
  apply bind_ok in H1 as (t1 & w1 & [= <- <-] & H1).
  apply bind_ok in H1 as (t2 & w2 & [= <- <-] & H1).
  apply bind_ok in H1 as (f1 & w3 & Hf1 & H1).
  apply bind_ok in H1 as (loc & wl & Hloc & H1).
  apply bind_ok in H1 as (dev & wd & Hdev & H1).
  apply bind_ok in H1 as (vel & wv & Hvel & H1).
  apply bind_ok in H1 as (beh & wb & Hbeh & H1).
  exists amount, loc, dev, vel, beh, wl, wd, wv.
  unfold history_get.
  destruct (if_truthy user_history) as [h|].
  - apply bind_ok in Hf1 as (a & w4 & [Hget ->]%lift_ok & [-> ->]%ret_ok).
    revert Hget. getitem_insert. intros [= <-].
    revert H1. getitem_insert.
    intros (a & w5 & [[= <-] ->]%lift_ok & H1)%bind_ok.
    revert H1. getitem_insert.
    intros (a & w6 & [[= <-] ->]%lift_ok & [-> ->]%ret_ok)%bind_ok.
    repeat split; assumption.
  - apply bind_ok in Hf1 as (a & w4 & [Hget ->]%lift_ok & [-> ->]%ret_ok).
    revert Hget. getitem_insert. intros [= <-].
    revert H1. getitem_insert.
    intros (a & w5 & [[= <-] ->]%lift_ok & H1)%bind_ok.
    revert H1. getitem_insert.
    intros (a & w6 & [[= <-] ->]%lift_ok & [-> ->]%ret_ok)%bind_ok.
    repeat split; assumption.
Qed.

Lemma extract_features_returns transaction_data user_history w amount :
  context_well_typed transaction_data = true ->
  py_float (default (PyNum 0) (transaction_data !! "amount")) = Ok amount ->
  exists features w',
    extract_features transaction_data user_history w = (Ok features, w').
Proof.
  intros Hwt Ha. unfold extract_features. rewrite Ha.
  do 3 (erewrite bind_run by reflexivity).
  destruct (location_risk_returns transaction_data (advance (advance w)) Hwt)
    as (loc & wl & Hloc).
  destruct (device_risk_returns transaction_data wl Hwt) as (dev & wd & Hdev).
  destruct (velocity_risk_returns transaction_data user_history wd) as (vel & wv & Hvel).
  destruct (behavioral_score_returns transaction_data user_history wv) as (beh & wb & Hbeh).
  destruct (if_truthy user_history) as [h|].
  all: getitem_insert.
  all: erewrite bind_run by reflexivity.
  all: rewrite (bind_run _ _ _ _ _ Hloc), (bind_run _ _ _ _ _ Hdev).
  all: rewrite (bind_run _ _ _ _ _ Hvel), (bind_run _ _ _ _ _ Hbeh).
  all: getitem_insert; erewrite bind_run by reflexivity.
  all: getitem_insert; erewrite bind_run by reflexivity.
  all: unfold ret; eauto.
Qed.

(** The entries of the extracted dict. *)
Lemma features_dict_dom (a hr wd age prev avg loc dev vel beh tslt : Q) :
  dom (features_dict a hr wd age prev avg loc dev vel beh tslt) = list_to_set feature_columns.
Proof.
  unfold features_dict. rewrite !dom_insert_L, dom_empty_L.
  unfold feature_columns. cbn [list_to_set]. set_solver.
Qed.

Lemma features_dict_row (a hr wd age prev avg loc dev vel beh tslt : Q) :
  select_columns (features_dict a hr wd age prev avg loc dev vel beh tslt) feature_columns =
    Ok [a; hr; wd; age; prev; avg; loc; dev; vel; beh; tslt; Qabs (a - avg)].
Proof.
  unfold features_dict, feature_columns. cbn [select_columns].
  do 12 getitem_insert. reflexivity.
Qed.

(** Extraction reads the transaction through three keys only. *)
Lemma extract_features_ext (tx1 tx2 : gmap string PyVal) user_history :
  tx1 !! "amount" = tx2 !! "amount" ->
  tx1 !! "location" = tx2 !! "location" ->
  tx1 !! "deviceInfo" = tx2 !! "deviceInfo" ->
  extract_features tx1 user_history = extract_features tx2 user_history.
Proof.
  intros Ha Hl Hd.
  unfold extract_features, _compute_location_risk, _compute_device_risk,
    _compute_velocity_risk, _compute_behavioral_score.
  now rewrite Ha, Hl, Hd.
Qed.


Lemma valid_transaction_inv transaction_data :
  valid_transaction transaction_data = true ->
  exists a, transaction_data !! "amount" = Some (PyNum a) /\ (0 <= a)%Q /\
            context_well_typed transaction_data = true.
Proof.
  unfold valid_transaction. intros [Ha Hwt]%andb_prop.
  destruct (transaction_data !! "amount") as [[| a | |]|]; try discriminate.
  exists a. split; [reflexivity|]. split; [now apply Qle_bool_iff | exact Hwt].
Qed.

Lemma select_columns_lookup features columns row :
  select_columns features columns = Ok row ->
  Forall2 (fun c x => features !! c = Some x) columns row.
Proof.
  revert row. induction columns as [|c columns IH]; intros row; cbn [select_columns].
  - intros [= <-]. constructor.
  - destruct (getitem features c) as [x|e] eqn:Hx; [|discriminate].
    destruct (select_columns features columns) as [row'|e]; [|discriminate].
    intros [= <-]. constructor; [now apply getitem_ok | now apply IH].
Qed.

End Extraction.

(** ** Scoring *)

Section Scoring.
Context `{RT : Runtime}.
Implicit Types (w : World) (transaction_data : gmap string PyVal).
Implicit Types (user_history : option (gmap string Q)) (features : gmap string Q).
Implicit Types (self : FraudDetectionEngine) (result : gmap string PyVal).

Lemma transform_length sc (v scaled : list Q) :
  transform sc v = Ok scaled -> length scaled = length v.
Proof.
  unfold transform.
  destruct (_ =? _)%nat eqn:E1; [|discriminate].
  destruct (length v =? length (scale_ sc))%nat eqn:E2; [|discriminate].
  apply Nat.eqb_eq in E1, E2. intros [= <-].
  revert E1 E2. generalize (mean_ sc) (scale_ sc).
  induction v as [|x v IH]; intros [|m ms] [|s ss]; try discriminate; auto.
  cbn. intros [= E1] [= E2]. f_equal. now apply IH.
Qed.

Lemma transform_fitted self (row : list Q) :
  fitted self = true -> length row = length feature_columns ->
  transform (scaler self) row = Ok (standardize row (mean_ (scaler self)) (scale_ (scaler self))).
Proof.
  unfold fitted, transform. intros [E1 E2]%andb_prop Hlen.
  apply Nat.eqb_eq in E1, E2. rewrite Hlen, E1, E2, !Nat.eqb_refl. reflexivity.
Qed.

(** What a successful call computed. *)
Lemma predict_fraud_inv self transaction_data user_history w result w' :
  predict_fraud self transaction_data user_history w = (Ok result, w') ->
  exists features w1 row scaled behavioral location device velocity,
    extract_features transaction_data user_history (advance w) = (Ok features, w1) /\
    select_columns features feature_columns = Ok row /\
    transform (scaler self) row = Ok scaled /\
    features !! "behavioral_score" = Some behavioral /\
    features !! "location_risk_score" = Some location /\
    features !! "device_risk_score" = Some device /\
    features !! "velocity_score" = Some velocity /\
    result =
      score_dict (ensemble_probability self scaled)
        ((epoch_seconds (clock w1 (ticks w1)) - epoch_seconds (clock w (ticks w))) * 1000)
        behavioral location device velocity
        (isoformat (clock w1 (S (ticks w1)))).
Proof.
  unfold predict_fraud.
  intros (t0 & w0 & Ht0 & H1)%bind_ok.
  apply bind_ok in Ht0 as (i0 & wi & [= <- <-] & [-> ->]%ret_ok).
  apply bind_ok in H1 as (f & w1 & Hf & H1).
  apply bind_ok in H1 as (row & w2 & [Hrow ->]%lift_ok & H1).
  apply bind_ok in H1 as (scaled & w3 & [Hsc ->]%lift_ok & H1).
  apply bind_ok in H1 as (t1 & w4 & Ht1 & H1).
  apply bind_ok in Ht1 as (i1 & wj & [= <- <-] & [-> ->]%ret_ok).
  apply bind_ok in H1 as (beh & w5 & [Hbeh ->]%lift_ok & H1).
  apply bind_ok in H1 as (loc & w6 & [Hloc ->]%lift_ok & H1).
  apply bind_ok in H1 as (dev & w7 & [Hdev ->]%lift_ok & H1).
  apply bind_ok in H1 as (vel & w8 & [Hvel ->]%lift_ok & H1).
  apply bind_ok in H1 as (t2 & w9 & [= <- <-] & [-> ->]%ret_ok).
  apply getitem_ok in Hbeh, Hloc, Hdev, Hvel.
  exists f, w1, row, scaled, beh, loc, dev, vel.
  repeat split; assumption || reflexivity.
Qed.

(** Once extraction succeeds, a fitted engine returns a score. *)
Lemma predict_fraud_returns self transaction_data user_history w features w1 :
  fitted self = true ->
  extract_features transaction_data user_history (advance w) = (Ok features, w1) ->
  exists result w',
    predict_fraud self transaction_data user_history w = (Ok result, w').
Proof.
  intros Hfit Hf.
  destruct (extract_features_inv _ _ _ _ _ Hf)
    as (a & loc & dev & vel & beh & wl & wd & wv & _ & _ & _ & _ & _ & Hdict).
  pose proof (features_dict_row a
    (inject_Z (hour (clock (advance w) (ticks (advance w)))))
    (inject_Z (weekday (clock (advance w) (S (ticks (advance w))))))
    (history_get user_history "account_age_days" 1)
    (history_get user_history "transaction_count" 0)
    (history_get user_history "avg_amount" a)
    loc dev vel beh
    (history_get user_history "hours_since_last_tx" 24)) as Hrow.
  rewrite <- Hdict in Hrow.
  unfold predict_fraud.
  erewrite bind_run by reflexivity.
  rewrite (bind_run _ _ _ _ _ Hf).
  rewrite Hrow. erewrite bind_run by reflexivity.
  rewrite (transform_fitted self) by first [exact Hfit | reflexivity].
  erewrite bind_run by reflexivity.
  erewrite bind_run by reflexivity.
  rewrite Hdict. unfold features_dict.
  do 4 (getitem_insert; erewrite bind_run by reflexivity).
  erewrite bind_run by reflexivity.
  unfold ret. eauto.
Qed.

(** Entries of the returned dict. *)
Lemma score_dict_dom (p t beh loc dev vel : Q) (ts : string) :
  dom (score_dict p t beh loc dev vel ts) =
    list_to_set ["riskScore"; "riskLevel"; "decision"; "confidence";
                 "processingTime"; "features"; "timestamp"].
Proof.
  unfold score_dict. rewrite !dom_insert_L, dom_empty_L.
  cbn [list_to_set]. set_solver.
Qed.

Lemma score_dict_risk_score (p t beh loc dev vel : Q) (ts : string) :
  score_dict p t beh loc dev vel ts !! "riskScore" = Some (PyNum (py_round3 p)).
Proof. unfold score_dict. now lookup_insert. Qed.

Lemma score_dict_risk_level (p t beh loc dev vel : Q) (ts : string) :
  score_dict p t beh loc dev vel ts !! "riskLevel" =
    Some (PyStr (fst (risk_level_decision p))).
Proof. unfold score_dict. now lookup_insert. Qed.

Lemma score_dict_decision (p t beh loc dev vel : Q) (ts : string) :
  score_dict p t beh loc dev vel ts !! "decision" =
    Some (PyStr (snd (risk_level_decision p))).
Proof. unfold score_dict. now lookup_insert. Qed.

Lemma score_dict_confidence (p t beh loc dev vel : Q) (ts : string) :
  score_dict p t beh loc dev vel ts !! "confidence" =
    Some (PyNum (py_round3 (py_max p (1 - p)))).
Proof. unfold score_dict. now lookup_insert. Qed.

Lemma score_dict_processing_time (p t beh loc dev vel : Q) (ts : string) :
  score_dict p t beh loc dev vel ts !! "processingTime" =
    Some (PyStr (format_0f t ++ "ms")).
Proof. unfold score_dict. now lookup_insert. Qed.

Lemma score_dict_timestamp (p t beh loc dev vel : Q) (ts : string) :
  score_dict p t beh loc dev vel ts !! "timestamp" = Some (PyStr ts).
Proof. unfold score_dict. now lookup_insert. Qed.

Lemma score_dict_features (p t beh loc dev vel : Q) (ts : string) :
  exists fs : gmap string PyVal,
    score_dict p t beh loc dev vel ts !! "features" = Some (PyDict fs) /\
    dom fs = list_to_set ["behavioralScore"; "locationScore"; "deviceScore"; "velocityScore"] /\
    fs !! "behavioralScore" = Some (PyNum (py_round3 beh)) /\
    fs !! "locationScore" = Some (PyNum (py_round3 (1 - loc))) /\
    fs !! "deviceScore" = Some (PyNum (py_round3 (1 - dev))) /\
    fs !! "velocityScore" = Some (PyNum (py_round3 (1 - vel))).
Proof.
  eexists. split; [unfold score_dict; now lookup_insert|].
  split; [rewrite !dom_insert_L, dom_empty_L; cbn [list_to_set]; set_solver|].
  repeat split; now lookup_insert.
Qed.

Lemma score_dict_sub_scores (p t beh loc dev vel : Q) (ts : string) :
  sub_score (score_dict p t beh loc dev vel ts) "behavioralScore" = Some (py_round3 beh) /\
  sub_score (score_dict p t beh loc dev vel ts) "locationScore" = Some (py_round3 (1 - loc)) /\
  sub_score (score_dict p t beh loc dev vel ts) "deviceScore" = Some (py_round3 (1 - dev)) /\
  sub_score (score_dict p t beh loc dev vel ts) "velocityScore" = Some (py_round3 (1 - vel)).
Proof.
  destruct (score_dict_features p t beh loc dev vel ts) as (fs & Hfs & _ & H1 & H2 & H3 & H4).
  unfold sub_score, number_at. rewrite Hfs, H1, H2, H3, H4. auto.
Qed.

Lemma features_dict_scores (a hr wd age prev avg loc dev vel beh tslt : Q) :
  let features := features_dict a hr wd age prev avg loc dev vel beh tslt in
  features !! "behavioral_score" = Some beh /\
  features !! "location_risk_score" = Some loc /\
  features !! "device_risk_score" = Some dev /\
  features !! "velocity_score" = Some vel.
Proof. unfold features_dict. repeat split; now lookup_insert. Qed.

(** The whole of a successful call, from the transaction to the dict. *)
Lemma predict_fraud_trace self transaction_data user_history w result w' :
  predict_fraud self transaction_data user_history w = (Ok result, w') ->
  exists features w1 amount location device velocity behavioral wl wd wv scaled,
    extract_features transaction_data user_history (advance w) = (Ok features, w1) /\
    py_float (default (PyNum 0) (transaction_data !! "amount")) = Ok amount /\
    _compute_location_risk transaction_data (advance (advance (advance w))) = (Ok location, wl) /\
    _compute_device_risk transaction_data wl = (Ok device, wd) /\
    _compute_velocity_risk transaction_data user_history wd = (Ok velocity, wv) /\
    _compute_behavioral_score transaction_data user_history wv = (Ok behavioral, w1) /\
    features !! "location_risk_score" = Some location /\
    features !! "device_risk_score" = Some device /\
    features !! "velocity_score" = Some velocity /\
    features !! "behavioral_score" = Some behavioral /\
    select_columns features feature_columns =
      Ok [amount;
          inject_Z (hour (clock w (S (ticks w))));
          inject_Z (weekday (clock w (S (S (ticks w)))));
          history_get user_history "account_age_days" 1;
          history_get user_history "transaction_count" 0;
          history_get user_history "avg_amount" amount;
          location; device; velocity; behavioral;
          history_get user_history "hours_since_last_tx" 24;
          Qabs (amount - history_get user_history "avg_amount" amount)] /\
    transform (scaler self)
         [amount;
          inject_Z (hour (clock w (S (ticks w))));
          inject_Z (weekday (clock w (S (S (ticks w)))));
          history_get user_history "account_age_days" 1;
          history_get user_history "transaction_count" 0;
          history_get user_history "avg_amount" amount;
          location; device; velocity; behavioral;
          history_get user_history "hours_since_last_tx" 24;
          Qabs (amount - history_get user_history "avg_amount" amount)] = Ok scaled /\
    result =
      score_dict (ensemble_probability self scaled)
        ((epoch_seconds (clock w1 (ticks w1)) - epoch_seconds (clock w (ticks w))) * 1000)
        behavioral location device velocity
        (isoformat (clock w1 (S (ticks w1)))).
Proof.
  intros (f & w1 & row & scaled & beh & loc & dev & vel &
          Hf & Hrow & Hsc & Hbeh & Hloc & Hdev & Hvel & ->)%predict_fraud_inv.
  destruct (extract_features_inv _ _ _ _ _ Hf)
    as (a & loc' & dev' & vel' & beh' & wl & wd & wv & Ha & Hl & Hd & Hv & Hb & Hdict).
  cbn [advance clock ticks] in Hdict.
  rewrite Hdict in Hrow, Hbeh, Hloc, Hdev, Hvel.
  rewrite features_dict_row in Hrow. injection Hrow as <-.
  destruct (features_dict_scores a
    (inject_Z (hour (clock w (S (ticks w)))))
    (inject_Z (weekday (clock w (S (S (ticks w))))))
    (history_get user_history "account_age_days" 1)
    (history_get user_history "transaction_count" 0)
    (history_get user_history "avg_amount" a)
    loc' dev' vel' beh'
    (history_get user_history "hours_since_last_tx" 24)) as (Eb & El & Ed & Ev).
  rewrite Eb in Hbeh. rewrite El in Hloc. rewrite Ed in Hdev. rewrite Ev in Hvel.
  injection Hbeh as <-. injection Hloc as <-. injection Hdev as <-. injection Hvel as <-.
  exists f, w1, a, loc', dev', vel', beh', wl, wd, wv, scaled.
  rewrite Hdict at 2 3 4 5 6.
  rewrite features_dict_row.
  repeat split; try assumption; try reflexivity.
Qed.

End Scoring.

(** * The claims *)

Section Claims.
Context `{RT : Runtime}.
Implicit Types (w : World) (transaction_data : gmap string PyVal).
Implicit Types (user_history : option (gmap string Q)) (features : gmap string Q).
Implicit Types (self : FraudDetectionEngine) (result : gmap string PyVal).

(** C1, as the code has it.  The code validates nothing: when the [amount]
    entry is missing, feature extraction takes 0 for it, and a negative
    amount that is a binary64 value, such as -50, is used unchanged as
    [transaction_amount].  In both cases, for a transaction whose [location]
    and [deviceInfo] are well typed and a history whose values are within
    binary64 range, extraction succeeds and yields the twelve-column row; and
    on a fitted engine, when that row and its scaled values are within the
    range the scaler and the classifiers accept, [predict_fraud] returns a
    score dict. *)
Theorem missing_or_negative_amount_is_scored self transaction_data user_history w :
  context_well_typed transaction_data = true ->
  history_in_float_range user_history ->
  (transaction_data !! "amount" = None \/
   exists a, transaction_data !! "amount" = Some (PyNum a) /\ (a < 0)%Q /\ binary64 a) ->
  exists features w1 row,
    extract_features transaction_data user_history (advance w) = (Ok features, w1) /\
    features !! "transaction_amount" =
      Some (match transaction_data !! "amount" with
            | Some (PyNum a) => a
            | _ => 0%Q
            end) /\
    select_columns features feature_columns = Ok row /\
    (fitted self = true ->
     row_in_range row (mean_ (scaler self)) (scale_ (scaler self)) = true ->
     exists result w',
       predict_fraud self transaction_data user_history w = (Ok result, w')).
Proof.
  intros Hwt _ Hamount.
  set (amount := match transaction_data !! "amount" with
                 | Some (PyNum a) => a
                 | _ => 0%Q
                 end).
  assert (py_float (default (PyNum 0) (transaction_data !! "amount")) = Ok amount) as Ha.
  { subst amount. destruct Hamount as [-> | (a & -> & _)]; reflexivity. }
  destruct (extract_features_returns transaction_data user_history (advance w) amount Hwt Ha)
    as (f & w1 & Hf).
  destruct (extract_features_inv _ _ _ _ _ Hf)
    as (a & loc & dev & vel & beh & wl & wd & wv & Ha' & _ & _ & _ & _ & Hdict).
  rewrite Ha in Ha'. injection Ha' as <-.
  exists f, w1. eexists.
  split; [exact Hf|].
  split; [rewrite Hdict; unfold features_dict; now lookup_insert|].
  split; [rewrite Hdict; apply features_dict_row|].
  intros Hfit _. exact (predict_fraud_returns self _ _ _ _ _ Hfit Hf).
Qed.

(** C2, as the code has it.  Every returned dict has exactly the keys
    [riskScore], [riskLevel], [decision], [confidence], [processingTime],
    [features] and [timestamp].  When the classifiers return probabilities
    and the beta samples lie in [0,1]: [riskScore] is a number in [0,1],
    [riskLevel] is LOW, MEDIUM or HIGH, [decision] is APPROVE, REVIEW or
    BLOCK, [confidence] is a number in [0.5,1], [processingTime] is the
    string of a whole number of milliseconds followed by "ms", [features] is
    a dict with exactly the keys [behavioralScore], [locationScore],
    [deviceScore], [velocityScore], each a number in [0,1], and [timestamp]
    is a string. *)
Theorem score_result_shape self transaction_data user_history w result w' :
  beta_in_unit_interval ->
  probabilistic self ->
  predict_fraud self transaction_data user_history w = (Ok result, w') ->
  dom result = list_to_set ["riskScore"; "riskLevel"; "decision"; "confidence";
                            "processingTime"; "features"; "timestamp"] /\
  (exists x, result !! "riskScore" = Some (PyNum x) /\ (0 <= x <= 1)%Q) /\
  (exists l, result !! "riskLevel" = Some (PyStr l) /\ l ∈ ["LOW"; "MEDIUM"; "HIGH"]) /\
  (exists d, result !! "decision" = Some (PyStr d) /\ d ∈ ["APPROVE"; "REVIEW"; "BLOCK"]) /\
  (exists c, result !! "confidence" = Some (PyNum c) /\ (1 # 2 <= c <= 1)%Q) /\
  (exists t : Q, result !! "processingTime" = Some (PyStr (format_0f t ++ "ms"))) /\
  (exists fs : gmap string PyVal,
     result !! "features" = Some (PyDict fs) /\
     dom fs = list_to_set ["behavioralScore"; "locationScore"; "deviceScore"; "velocityScore"] /\
     forall k, k ∈ ["behavioralScore"; "locationScore"; "deviceScore"; "velocityScore"] ->
       exists x, fs !! k = Some (PyNum x) /\ (0 <= x <= 1)%Q) /\
  (exists ts, result !! "timestamp" = Some (PyStr ts)).
Proof.
  intros Hbeta Hprob
    (f & w1 & a & loc & dev & vel & beh & wl & wd & wv & scaled &
     _ & _ & Hl & Hd & Hv & Hb & _ & _ & _ & _ & _ & _ & ->)%predict_fraud_trace.
  apply (location_risk_unit _ _ _ _ Hbeta) in Hl.
  apply (device_risk_unit _ _ _ _ Hbeta) in Hd.
  apply (velocity_risk_unit _ _ _ _ _ Hbeta) in Hv.
  apply (behavioral_score_unit _ _ _ _ _ Hbeta) in Hb.
  set (p := ensemble_probability self scaled).
  assert (0 <= p <= 1)%Q as Hp.
  { subst p. unfold ensemble_probability.
    destruct (Hprob scaled) as [Hrf Hgb]. split; qlra. }
  split; [apply score_dict_dom|].
  split. { eexists. split; [apply score_dict_risk_score|]. now apply py_round3_unit. }
  split.
  { eexists. split; [apply score_dict_risk_level|].
    unfold risk_level_decision. repeat destruct (Qltb _ _); cbn [fst]; apply list_elem_of_In; cbn; auto. }
  split.
  { eexists. split; [apply score_dict_decision|].
    unfold risk_level_decision. repeat destruct (Qltb _ _); cbn [snd]; apply list_elem_of_In; cbn; auto. }
  split.
  { eexists. split; [apply score_dict_confidence|].
    apply py_round3_upper_half.
    pose proof (py_max_spec p (1 - p)) as [H1 H2].
    destruct (py_max_cases p (1 - p)) as [E | E]; rewrite E in *; lra. }
  split. { eexists. apply score_dict_processing_time. }
  split; [|eexists; apply score_dict_timestamp].
  destruct (score_dict_features p
    ((epoch_seconds (clock w1 (ticks w1)) - epoch_seconds (clock w (ticks w))) * 1000)
    beh loc dev vel (isoformat (clock w1 (S (ticks w1)))))
    as (fs & Hfs & Hdom & H1 & H2 & H3 & H4).
  exists fs. split; [exact Hfs|]. split; [exact Hdom|].
  intros k Hk.
  repeat (apply elem_of_cons in Hk as [-> | Hk]); [| | | |now apply elem_of_nil in Hk].
  - eexists. split; [exact H1|]. now apply py_round3_unit.
  - eexists. split; [exact H2|]. apply py_round3_unit. lra.
  - eexists. split; [exact H3|]. apply py_round3_unit. lra.
  - eexists. split; [exact H4|]. apply py_round3_unit. lra.
Qed.


(** C4, as the code has it.  The ensemble probability on which the decision
    is taken is the arithmetic mean (p1 + p2) / 2 of the two classifier
    outputs.  The returned [riskScore] is that mean rounded to three
    decimals, and the returned [confidence] is max(p, 1 - p) rounded to three
    decimals; for p1, p2 in [0,1] it lies in [0.5, 1].  For p1 = 0.8 and
    p2 = 0.4 both returned numbers are 0.6. *)
Theorem ensemble_mean_and_confidence
    self transaction_data user_history w result w' :
  predict_fraud self transaction_data user_history w = (Ok result, w') ->
  exists features w1 row scaled,
    extract_features transaction_data user_history (advance w) = (Ok features, w1) /\
    select_columns features feature_columns = Ok row /\
    transform (scaler self) row = Ok scaled /\
    let p1 := model_rf self scaled in
    let p2 := model_gb self scaled in
    let p := ((p1 + p2) / 2)%Q in
    ensemble_probability self scaled = p /\
    result !! "riskLevel" = Some (PyStr (fst (risk_level_decision p))) /\
    number_at result "riskScore" = Some (py_round3 p) /\
    number_at result "confidence" = Some (py_round3 (py_max p (1 - p))) /\
    (p <= py_max p (1 - p) /\ 1 - p <= py_max p (1 - p))%Q /\
    (py_max p (1 - p) = p \/ py_max p (1 - p) = (1 - p)%Q) /\
    ((0 <= p1 <= 1)%Q -> (0 <= p2 <= 1)%Q ->
       (1 # 2 <= py_max p (1 - p) <= 1)%Q /\
       (1 # 2 <= py_round3 (py_max p (1 - p)) <= 1)%Q) /\
    ((p1 == 8 # 10)%Q -> (p2 == 4 # 10)%Q ->
       (py_round3 p == 6 # 10)%Q /\ (py_round3 (py_max p (1 - p)) == 6 # 10)%Q).
Proof.
  intros (f & w1 & row & scaled & beh & loc & dev & vel &
          Hf & Hrow & Hsc & _ & _ & _ & _ & ->)%predict_fraud_inv.
  exists f, w1, row, scaled.
  split; [exact Hf|]. split; [exact Hrow|]. split; [exact Hsc|].
  cbv zeta. fold (ensemble_probability self scaled).
  set (p := ensemble_probability self scaled).
  split; [reflexivity|].
  split; [apply score_dict_risk_level|].
  split; [unfold number_at; now rewrite score_dict_risk_score|].
  split; [unfold number_at; now rewrite score_dict_confidence|].
  split; [apply py_max_spec|].
  split; [apply py_max_cases|].
  split.
  - intros H1 H2.
    assert (0 <= p <= 1)%Q as Hp by (subst p; unfold ensemble_probability; split; qlra).
    assert (1 # 2 <= py_max p (1 - p) <= 1)%Q as Hm.
    { pose proof (py_max_spec p (1 - p)) as [Ha Hb].
      destruct (py_max_cases p (1 - p)) as [E | E]; rewrite E in *; lra. }
    split; [exact Hm | now apply py_round3_upper_half].
  - intros H1 H2.
    assert (p == 6 # 10)%Q as Hp by (subst p; unfold ensemble_probability; qlra).
    assert (py_max p (1 - p) == 6 # 10)%Q as Hm.
    { rewrite (py_max_comp p (6 # 10) (1 - p) (4 # 10)); [reflexivity|exact Hp|lra]. }
    rewrite (py_round3_comp _ _ Hp), (py_round3_comp _ _ Hm). split; reflexivity.
Qed.


(** C6.  [feature_columns] lists the twelve names in the fixed order;
    every successful extraction fills exactly these twelve entries; and in
    every successful scoring call the row given to the scaler, whose output
    both classifiers receive, is the twelve extracted values in that order. *)
Theorem feature_vector_order :
  feature_columns =
    [ "transaction_amount"; "hour_of_day"; "day_of_week"; "user_age_days";
      "previous_transactions"; "avg_transaction_amount"; "location_risk_score";
      "device_risk_score"; "velocity_score"; "behavioral_score";
      "time_since_last_tx"; "amount_deviation" ] /\
  (forall transaction_data user_history w features w',
     extract_features transaction_data user_history w = (Ok features, w') ->
     dom features = list_to_set feature_columns /\
     forall c, c ∈ feature_columns -> is_Some (features !! c)) /\
  (forall self transaction_data user_history w result w',
     predict_fraud self transaction_data user_history w = (Ok result, w') ->
     exists features w1 row scaled,
       extract_features transaction_data user_history (advance w) = (Ok features, w1) /\
       select_columns features feature_columns = Ok row /\
       length row = 12%nat /\
       Forall2 (fun c x => features !! c = Some x) feature_columns row /\
       transform (scaler self) row = Ok scaled /\
       length scaled = 12%nat /\
       number_at result "riskScore" =
         Some (py_round3 ((model_rf self scaled + model_gb self scaled) / 2))).
Proof.
  split; [reflexivity|]. split.
  - intros transaction_data user_history w features w' Hf.
    destruct (extract_features_inv _ _ _ _ _ Hf)
      as (a & loc & dev & vel & beh & wl & wd & wv & _ & _ & _ & _ & _ & ->).
    split; [apply features_dict_dom|].
    intros c Hc. apply elem_of_dom. rewrite features_dict_dom.
    now apply elem_of_list_to_set.
  - intros self transaction_data user_history w result w'
      (f & w1 & row & scaled & beh & loc & dev & vel &
       Hf & Hrow & Hsc & _ & _ & _ & _ & ->)%predict_fraud_inv.
    exists f, w1, row, scaled.
    pose proof (select_columns_lookup _ _ _ Hrow) as Hall.
    assert (length row = 12%nat) as Hlen
      by (apply Forall2_length in Hall; now rewrite <- Hall).
    split; [exact Hf|]. split; [exact Hrow|]. split; [exact Hlen|].
    split; [exact Hall|]. split; [exact Hsc|].
    split; [now rewrite (transform_length _ _ _ Hsc)|].
    unfold number_at. now rewrite score_dict_risk_score.
Qed.

(** C7.  Normalization is the linear standardization of each coordinate,
    [normalize(v)[i] = (v[i] - mean[i]) / std[i]], and when no standard
    deviation is zero, normalizing the de-normalized vector gives the vector
    back (exactly, numbers being rationals). *)
Theorem standardization_round_trip (sc : StandardScaler) (v : list Q) :
  length v = length (mean_ sc) ->
  length v = length (scale_ sc) ->
  (exists v',
     transform sc v = Ok v' /\
     length v' = length v /\
     forall (i : nat) (x m s : Q),
       v !! i = Some x -> mean_ sc !! i = Some m -> scale_ sc !! i = Some s ->
       v' !! i = Some ((x - m) / s)%Q) /\
  (Forall (fun s => ~ (s == 0)%Q) (scale_ sc) ->
   exists u v',
     inverse_transform sc v = Ok u /\
     transform sc u = Ok v' /\
     Forall2 Qeq v' v).
Proof.
  intros Hm Hs. split.
  - exists (standardize v (mean_ sc) (scale_ sc)).
    split; [unfold transform; now rewrite <- Hm, <- Hs, !Nat.eqb_refl|].
    split; [now apply standardize_length|].
    intros i x m s. apply standardize_lookup.
  - intros Hnz.
    exists (unstandardize v (mean_ sc) (scale_ sc)),
           (standardize (unstandardize v (mean_ sc) (scale_ sc)) (mean_ sc) (scale_ sc)).
    split; [unfold inverse_transform; now rewrite <- Hm, <- Hs, !Nat.eqb_refl|].
    split; [|now apply standardize_unstandardize].
    unfold transform.
    rewrite (unstandardize_length v _ _ Hm Hs).
    now rewrite <- Hm, <- Hs, !Nat.eqb_refl.
Qed.

(** C8, as the code has it.  In every returned dict the displayed sub-scores
    are [1 - score], rounded to three decimals, for the extracted location,
    device and velocity risk scores, and the extracted behavioural score,
    rounded to three decimals; the row given to the scaler, and through it
    to the classifiers, holds the four extracted scores themselves, at
    positions 6 to 9. *)
Theorem display_sub_scores self transaction_data user_history w result w' :
  predict_fraud self transaction_data user_history w = (Ok result, w') ->
  exists features w1 row scaled location device velocity behavioral,
    extract_features transaction_data user_history (advance w) = (Ok features, w1) /\
    features !! "location_risk_score" = Some location /\
    features !! "device_risk_score" = Some device /\
    features !! "velocity_score" = Some velocity /\
    features !! "behavioral_score" = Some behavioral /\
    sub_score result "locationScore" = Some (py_round3 (1 - location)) /\
    sub_score result "deviceScore" = Some (py_round3 (1 - device)) /\
    sub_score result "velocityScore" = Some (py_round3 (1 - velocity)) /\
    sub_score result "behavioralScore" = Some (py_round3 behavioral) /\
    select_columns features feature_columns = Ok row /\
    row !! 6%nat = Some location /\
    row !! 7%nat = Some device /\
    row !! 8%nat = Some velocity /\
    row !! 9%nat = Some behavioral /\
    transform (scaler self) row = Ok scaled /\
    number_at result "riskScore" =
      Some (py_round3 ((model_rf self scaled + model_gb self scaled) / 2)).
Proof.
  intros (f & w1 & a & loc & dev & vel & beh & wl & wd & wv & scaled &
          Hf & _ & _ & _ & _ & _ & Hl & Hd & Hv & Hb & Hrow & Hsc & ->)%predict_fraud_trace.
  eexists f, w1, _, scaled, loc, dev, vel, beh.
  split; [exact Hf|].
  split; [exact Hl|]. split; [exact Hd|]. split; [exact Hv|]. split; [exact Hb|].
  match goal with
  | |- context [score_dict ?p ?t _ _ _ _ ?ts] =>
      destruct (score_dict_sub_scores p t beh loc dev vel ts) as (S1 & S2 & S3 & S4)
  end.
  split; [exact S2|]. split; [exact S3|]. split; [exact S4|]. split; [exact S1|].
  split; [exact Hrow|].
  do 4 (split; [reflexivity|]).
  split; [exact Hsc|].
  unfold number_at. now rewrite score_dict_risk_score.
Qed.

(** C9.  [hour_of_day] and [day_of_week] are read off the processing clock,
    not off the transaction: two transactions that differ only in their
    [timestamp] entry give, on the same clock and random source, the same
    extraction outcome, hence identical feature vectors; and for a valid
    transaction that outcome is a feature dict whose [hour_of_day] and
    [day_of_week] are the hour and the weekday of the two clock readings
    taken during extraction. *)
Theorem time_features_from_processing_clock
    (tx1 tx2 : gmap string PyVal) user_history w :
  (forall k, k <> "timestamp" -> tx1 !! k = tx2 !! k) ->
  extract_features tx1 user_history w = extract_features tx2 user_history w /\
  (forall features w',
     extract_features tx1 user_history w = (Ok features, w') ->
     extract_features tx2 user_history w = (Ok features, w') /\
     features !! "hour_of_day" = Some (inject_Z (hour (clock w (ticks w)))) /\
     features !! "day_of_week" = Some (inject_Z (weekday (clock w (S (ticks w))))) /\
     exists row, select_columns features feature_columns = Ok row) /\
  (valid_transaction tx1 = true ->
   amount_in_float_range tx1 = true ->
   history_in_float_range user_history ->
   exists features w' row,
     extract_features tx1 user_history w = (Ok features, w') /\
     extract_features tx2 user_history w = (Ok features, w') /\
     features !! "hour_of_day" = Some (inject_Z (hour (clock w (ticks w)))) /\
     features !! "day_of_week" = Some (inject_Z (weekday (clock w (S (ticks w))))) /\
     select_columns features feature_columns = Ok row /\
     row !! 1%nat = Some (inject_Z (hour (clock w (ticks w)))) /\
     row !! 2%nat = Some (inject_Z (weekday (clock w (S (ticks w)))))).
Proof.
  intros Hsame.
  assert (extract_features tx1 user_history = extract_features tx2 user_history) as E
    by (apply extract_features_ext; apply Hsame; discriminate).
  assert (forall features w',
     extract_features tx1 user_history w = (Ok features, w') ->
     features !! "hour_of_day" = Some (inject_Z (hour (clock w (ticks w)))) /\
     features !! "day_of_week" = Some (inject_Z (weekday (clock w (S (ticks w))))) /\
     select_columns features feature_columns =
       Ok [default 0%Q (features !! "transaction_amount");
           inject_Z (hour (clock w (ticks w)));
           inject_Z (weekday (clock w (S (ticks w))));
           default 0%Q (features !! "user_age_days");
           default 0%Q (features !! "previous_transactions");
           default 0%Q (features !! "avg_transaction_amount");
           default 0%Q (features !! "location_risk_score");
           default 0%Q (features !! "device_risk_score");
           default 0%Q (features !! "velocity_score");
           default 0%Q (features !! "behavioral_score");
           default 0%Q (features !! "time_since_last_tx");
           default 0%Q (features !! "amount_deviation")]) as Hread.
  { intros features w' Hf.
    destruct (extract_features_inv _ _ _ _ _ Hf)
      as (a & loc & dev & vel & beh & wl & wd & wv & _ & _ & _ & _ & _ & ->).
    split; [unfold features_dict; now lookup_insert|].
    split; [unfold features_dict; now lookup_insert|].
    rewrite features_dict_row. unfold features_dict.
    repeat (lookup_insert; cbn [default from_option id]). reflexivity. }
  split; [now rewrite E|]. split.
  - intros features w' Hf.
    split; [now rewrite <- E|].
    destruct (Hread _ _ Hf) as (Hh & Hd & Hrow).
    split; [exact Hh|]. split; [exact Hd|]. eexists. exact Hrow.
  - intros (a & Ha & _ & Hwt)%valid_transaction_inv _ _.
    assert (py_float (default (PyNum 0) (tx1 !! "amount")) = Ok a) as Hfl
      by now rewrite Ha.
    destruct (extract_features_returns tx1 user_history w a Hwt Hfl) as (f & w' & Hf).
    destruct (Hread _ _ Hf) as (Hh & Hd & Hrow).
    exists f, w'. eexists.
    split; [exact Hf|]. split; [now rewrite <- E|].
    split; [exact Hh|]. split; [exact Hd|]. split; [exact Hrow|].
    split; reflexivity.
Qed.

(** C10.  In every returned dict, [riskScore], [confidence] and the four
    displayed sub-scores are results of rounding to three decimals: each is a
    whole number of thousandths, at most half a thousandth away from the
    value it displays. *)
Theorem returned_numbers_have_three_decimals
    self transaction_data user_history w result w' :
  predict_fraud self transaction_data user_history w = (Ok result, w') ->
  exists features w1 row scaled location device velocity behavioral
         risk confidence s_loc s_dev s_vel s_beh,
    extract_features transaction_data user_history (advance w) = (Ok features, w1) /\
    select_columns features feature_columns = Ok row /\
    transform (scaler self) row = Ok scaled /\
    features !! "location_risk_score" = Some location /\
    features !! "device_risk_score" = Some device /\
    features !! "velocity_score" = Some velocity /\
    features !! "behavioral_score" = Some behavioral /\
    let p := ensemble_probability self scaled in
    number_at result "riskScore" = Some risk /\ rounded_to_3 p risk /\
    number_at result "confidence" = Some confidence /\
    rounded_to_3 (py_max p (1 - p)) confidence /\
    sub_score result "locationScore" = Some s_loc /\ rounded_to_3 (1 - location) s_loc /\
    sub_score result "deviceScore" = Some s_dev /\ rounded_to_3 (1 - device) s_dev /\
    sub_score result "velocityScore" = Some s_vel /\ rounded_to_3 (1 - velocity) s_vel /\
    sub_score result "behavioralScore" = Some s_beh /\ rounded_to_3 behavioral s_beh.
Proof.
  intros (f & w1 & row & scaled & beh & loc & dev & vel &
          Hf & Hrow & Hsc & Hb & Hl & Hd & Hv & ->)%predict_fraud_inv.
  match goal with
  | |- context [score_dict ?p ?t _ _ _ _ ?ts] =>
      destruct (score_dict_sub_scores p t beh loc dev vel ts) as (S1 & S2 & S3 & S4)
  end.
  exists f, w1, row, scaled, loc, dev, vel, beh.
  do 6 eexists.
  split; [exact Hf|]. split; [exact Hrow|]. split; [exact Hsc|].
  split; [exact Hl|]. split; [exact Hd|]. split; [exact Hv|]. split; [exact Hb|].
  cbv zeta.
  split; [unfold number_at; now rewrite score_dict_risk_score|].
  split; [apply py_round3_rounds|].
  split; [unfold number_at; now rewrite score_dict_confidence|].
  split; [apply py_round3_rounds|].
  split; [exact S2|]. split; [apply py_round3_rounds|].
  split; [exact S3|]. split; [apply py_round3_rounds|].
  split; [exact S4|]. split; [apply py_round3_rounds|].
  split; [exact S1|]. apply py_round3_rounds.
Qed.

End Claims.

(** * Concrete runs *)

Lemma fixed_beta_unit : beta_in_unit_interval.
Proof.
  intros a b n. cbn.
  do 4 (destruct n as [|n]; [cbn; lra|]). destruct n; cbn; lra.
Qed.

Lemma engine_08_04_probabilistic : probabilistic engine_08_04.
Proof. intros x. cbn. lra. Qed.

(** C1 fails on the code: a transaction with [amount = -50], and one with
    no [amount] at all, are scored like any other; nothing is raised. *)
Lemma negative_amount_is_scored :
  tx_negative !! "amount" = Some (PyNum (-50)) /\
  predict_fraud engine_08_04 tx_negative None fixed_world =
    (Ok result_negative, world_after 2) /\
  result_negative !! "decision" = Some (PyStr "REVIEW") /\
  tx_no_amount !! "amount" = None /\
  predict_fraud engine_01234 tx_no_amount None fixed_world =
    (Ok result_no_amount, world_after 2) /\
  result_no_amount !! "decision" = Some (PyStr "APPROVE").
Proof. repeat split; reflexivity. Qed.

Lemma missing_or_negative_amount_is_scored_witness :
  exists features w1 result w',
    extract_features tx_negative None (advance fixed_world) = (Ok features, w1) /\
    features !! "transaction_amount" = Some (-50)%Q /\
    predict_fraud engine_08_04 tx_negative None fixed_world = (Ok result, w').
Proof.
  destruct (missing_or_negative_amount_is_scored engine_08_04 tx_negative None fixed_world)
    as (f & w1 & row & Hf & Ha & Hrow & Hrun).
  - reflexivity.
  - intros h k v [=].
  - right. exists (-50)%Q. split; [reflexivity|]. split; [reflexivity|].
    exists (-50)%Z, 0%Z. split; [reflexivity|]. split; [lia | reflexivity].
  - assert (extract_features tx_negative None (advance fixed_world) =
            (Ok features_negative, advance (world_extracted 2)))
      as E by reflexivity.
    rewrite E in Hf. injection Hf as <- <-.
    assert (select_columns features_negative feature_columns =
            Ok [(-50)%Q; 14%Q; 2%Q; 1%Q; 0%Q; (-50)%Q; (1234 # 10000)%Q; (1 # 4)%Q;
                (1 # 10)%Q; (1 # 2)%Q; 24%Q; Qabs (-50 - -50)])
      as Er by apply features_dict_row.
    rewrite Er in Hrow. injection Hrow as <-.
    destruct (Hrun eq_refl eq_refl) as (result & w' & Hres).
    exists features_negative, (advance (world_extracted 2)), result, w'.
    split; [reflexivity|]. split; [exact Ha | exact Hres].
Defined.

(** C2 fails on the code: the returned dict has none of the keys
    [risk_score], [risk_level], [processing_time_ms] and [sub_scores]; the
    processing time is the string ["9ms"] under [processingTime] and the
    sub-scores sit under [features]. *)
Lemma score_result_keys_differ :
  predict_fraud engine_08_04 test_transaction (Some test_history) fixed_world =
    (Ok result_test, world_after 4) /\
  result_test !! "risk_score" = None /\
  result_test !! "risk_level" = None /\
  result_test !! "processing_time_ms" = None /\
  result_test !! "sub_scores" = None /\
  result_test !! "processingTime" = Some (PyStr "9ms") /\
  sub_score result_test "locationScore" = Some (877 # 1000)%Q.
Proof. repeat split; reflexivity. Qed.

Lemma score_result_shape_witness :
  dom result_test = list_to_set ["riskScore"; "riskLevel"; "decision"; "confidence";
                                 "processingTime"; "features"; "timestamp"] /\
  (exists x, result_test !! "riskScore" = Some (PyNum x) /\ (0 <= x <= 1)%Q) /\
  (exists c, result_test !! "confidence" = Some (PyNum c) /\ (1 # 2 <= c <= 1)%Q).
Proof.
  pose proof (score_result_shape engine_08_04 test_transaction (Some test_history)
                fixed_world result_test (world_after 4)
                fixed_beta_unit engine_08_04_probabilistic eq_refl)
    as (Hdom & Hrisk & _ & _ & Hconf & _).
  split; [exact Hdom|]. split; [exact Hrisk | exact Hconf].
Defined.


(** C4 fails on the code: with both classifiers at 0.1234 the probability is
    0.1234 and max(p, 1 - p) is 0.8766, but the returned confidence is 0.877
    and the returned risk score 0.123. *)
Lemma confidence_is_rounded :
  predict_fraud engine_01234 tx_no_amount None fixed_world =
    (Ok result_no_amount, world_after 2) /\
  (forall x, model_rf engine_01234 x = (1234 # 10000)%Q /\
             model_gb engine_01234 x = (1234 # 10000)%Q) /\
  let p := (((1234 # 10000) + (1234 # 10000)) / 2)%Q in
  exists risk confidence,
    number_at result_no_amount "riskScore" = Some risk /\
    number_at result_no_amount "confidence" = Some confidence /\
    (risk == 123 # 1000)%Q /\ (confidence == 877 # 1000)%Q /\
    (py_max p (1 - p) == 8766 # 10000)%Q /\
    ~ (risk == p)%Q /\
    ~ (confidence == py_max p (1 - p))%Q.
Proof.
  split; [reflexivity|]. split; [intros x; split; reflexivity|].
  cbv zeta. eexists. eexists.
  split; [reflexivity|]. split; [reflexivity|].
  repeat split; try reflexivity; discriminate.
Qed.

Lemma ensemble_mean_and_confidence_witness :
  number_at result_test "riskScore" = Some (py_round3 (((8 # 10) + (4 # 10)) / 2)) /\
  (py_round3 (((8 # 10) + (4 # 10)) / 2) == 6 # 10)%Q /\
  (py_round3 (py_max (((8 # 10) + (4 # 10)) / 2) (1 - ((8 # 10) + (4 # 10)) / 2)) == 6 # 10)%Q.
Proof.
  destruct (ensemble_mean_and_confidence engine_08_04 test_transaction (Some test_history)
              fixed_world result_test (world_after 4) eq_refl)
    as (f & w1 & row & scaled & _ & _ & _ & _ & _ & Hrisk & _ & _ & _ & _ & Hfixed).
  split; [exact Hrisk|].
  apply Hfixed; reflexivity.
Defined.


Lemma feature_vector_order_witness :
  exists features w1 row scaled,
    extract_features test_transaction (Some test_history) (advance fixed_world) =
      (Ok features, w1) /\
    select_columns features feature_columns = Ok row /\
    length row = 12%nat /\
    Forall2 (fun c x => features !! c = Some x) feature_columns row /\
    transform (scaler engine_08_04) row = Ok scaled /\
    length scaled = 12%nat /\
    number_at result_test "riskScore" =
      Some (py_round3 ((model_rf engine_08_04 scaled + model_gb engine_08_04 scaled) / 2)).
Proof.
  destruct feature_vector_order as (_ & _ & Hrun).
  exact (Hrun engine_08_04 test_transaction (Some test_history) fixed_world
           result_test (world_after 4) eq_refl).
Defined.

Lemma standardization_round_trip_witness :
  exists u v',
    inverse_transform {| mean_ := [10; 2]%Q; scale_ := [4; 5]%Q |} [3; -1]%Q = Ok u /\
    transform {| mean_ := [10; 2]%Q; scale_ := [4; 5]%Q |} u = Ok v' /\
    Forall2 Qeq v' [3; -1]%Q.
Proof.
  apply (standardization_round_trip {| mean_ := [10; 2]%Q; scale_ := [4; 5]%Q |} [3; -1]%Q).
  - reflexivity.
  - reflexivity.
  - repeat constructor; discriminate.
Defined.

(** C8 fails on the code: the extracted location risk is 0.1234 and the
    extracted velocity risk 0.61234, so one minus them is 0.8766 and 0.38766,
    but the displayed scores are 0.877 and 0.388. *)
Lemma displayed_scores_are_rounded :
  predict_fraud engine_08_04 test_transaction (Some test_history) fixed_world =
    (Ok result_test, world_after 4) /\
  fst (extract_features test_transaction (Some test_history) (advance fixed_world)) =
    Ok features_test /\
  features_test !! "location_risk_score" = Some (1234 # 10000)%Q /\
  features_test !! "velocity_score" = Some (61234 # 100000)%Q /\
  exists s_loc s_vel,
    sub_score result_test "locationScore" = Some s_loc /\
    sub_score result_test "velocityScore" = Some s_vel /\
    (s_loc == 877 # 1000)%Q /\ (s_vel == 388 # 1000)%Q /\
    ~ (s_loc == 1 - (1234 # 10000))%Q /\
    ~ (s_vel == 1 - (61234 # 100000))%Q.
Proof.
  split; [reflexivity|]. split; [reflexivity|].
  split; [reflexivity|]. split; [reflexivity|].
  eexists. eexists.
  split; [reflexivity|]. split; [reflexivity|].
  repeat split; try reflexivity; discriminate.
Qed.

Lemma display_sub_scores_witness :
  exists location device velocity behavioral,
    sub_score result_test "locationScore" = Some (py_round3 (1 - location)) /\
    sub_score result_test "deviceScore" = Some (py_round3 (1 - device)) /\
    sub_score result_test "velocityScore" = Some (py_round3 (1 - velocity)) /\
    sub_score result_test "behavioralScore" = Some (py_round3 behavioral).
Proof.
  destruct (display_sub_scores engine_08_04 test_transaction (Some test_history)
              fixed_world result_test (world_after 4) eq_refl)
    as (f & w1 & row & scaled & loc & dev & vel & beh &
        _ & _ & _ & _ & _ & H1 & H2 & H3 & H4 & _).
  exists loc, dev, vel, beh. auto.
Defined.

Lemma time_features_from_processing_clock_witness :
  exists features w' row,
    extract_features test_transaction None fixed_world = (Ok features, w') /\
    extract_features test_transaction_1999 None fixed_world = (Ok features, w') /\
    features !! "hour_of_day" = Some 14%Q /\
    features !! "day_of_week" = Some 2%Q /\
    select_columns features feature_columns = Ok row /\
    row !! 1%nat = Some 14%Q /\
    row !! 2%nat = Some 2%Q.
Proof.
  apply (time_features_from_processing_clock test_transaction test_transaction_1999
           None fixed_world).
  - intros k Hk. unfold test_transaction_1999. now rewrite lookup_insert_ne.
  - reflexivity.
  - reflexivity.
  - intros h k v [=].
Defined.

Lemma returned_numbers_have_three_decimals_witness :
  exists risk confidence,
    number_at result_test "riskScore" = Some risk /\ three_decimals risk /\
    number_at result_test "confidence" = Some confidence /\ three_decimals confidence.
Proof.
  destruct (returned_numbers_have_three_decimals engine_08_04 test_transaction
              (Some test_history) fixed_world result_test (world_after 4) eq_refl)
    as (f & w1 & row & scaled & loc & dev & vel & beh & risk & conf & sl & sd & sv & sb &
        _ & _ & _ & _ & _ & _ & _ & Hr & [Hr3 _] & Hc & [Hc3 _] & _).
  exists risk, conf. auto.
Defined.

(** * Further properties of the pipeline *)

(** ** More on rounding *)

Lemma round_half_even_nearest (x : Q) : nearest_even x (round_half_even x).
Proof.
  pose proof (Qfloor_le x) as Hlo. pose proof (Qlt_floor x) as Hhi.
  rewrite inject_Z_plus in Hhi. change (inject_Z 1) with 1%Q in Hhi.
  unfold nearest_even, round_half_even.
  destruct (x - inject_Z (Qfloor x) ?= 1 # 2)%Q eqn:E.
  - apply Qeq_alt in E. right.
    destruct (Z.even (Qfloor x)) eqn:Hev.
    + split; [right; lra | exact Hev].
    + split; [left; rewrite inject_Z_plus; change (inject_Z 1) with 1%Q; lra|].
      rewrite Z.even_add, Hev. reflexivity.
  - apply Qlt_alt in E. left. lra.
  - apply Qgt_alt in E. left.
    rewrite inject_Z_plus. change (inject_Z 1) with 1%Q. lra.
Qed.

Lemma nearest_even_unique (x : Q) (m n : Z) :
  nearest_even x m -> nearest_even x n -> m = n.
Proof.
  assert (forall a b : Z, nearest_even x a -> nearest_even x b -> (a <= b)%Z) as Hle.
  { intros a b Ha Hb.
    destruct (Z_le_gt_dec a b) as [Hab | Hab]; [exact Hab | exfalso].
    assert (b + 1 <= a)%Z as Hba by lia.
    rewrite Zle_Qle, inject_Z_plus in Hba. change (inject_Z 1) with 1%Q in Hba.
    destruct Ha as [Ha | [Ha Hea]]; destruct Hb as [Hb | [Hb Heb]];
      try (destruct Ha as [Ha | Ha]); try (destruct Hb as [Hb | Hb]); try lra.
    assert (inject_Z a == inject_Z (b + 1))%Q as Heq
      by (rewrite inject_Z_plus; change (inject_Z 1) with 1%Q; lra).
    apply (proj1 (inject_Z_injective _ _)) in Heq. subst a.
    rewrite Z.even_add, Heb in Hea. discriminate. }
  intros Hm Hn. apply Z.le_antisymm; auto.
Qed.

Lemma round_half_even_unique (x : Q) (n : Z) :
  nearest_even x n -> round_half_even x = n.
Proof. intros Hn. exact (nearest_even_unique x _ _ (round_half_even_nearest x) Hn). Qed.


(** Rounding commutes with the reflection [y |-> k - y] for an even [k]. *)
Lemma round_half_even_reflect (k : Z) (y : Q) :
  Z.even k = true ->
  round_half_even (inject_Z k - y) = (k - round_half_even y)%Z.
Proof.
  intros Hk. apply round_half_even_unique.
  pose proof (round_half_even_nearest y) as Hy.
  set (m := round_half_even y) in *.
  unfold nearest_even in *.
  assert (inject_Z (k - m) == inject_Z k - inject_Z m)%Q as E
    by (unfold Z.sub; rewrite inject_Z_plus, inject_Z_opp; lra).
  rewrite E.
  destruct Hy as [Hy | [Hy Hem]].
  - left. lra.
  - right. split.
    + destruct Hy as [Hy | Hy]; [right | left]; lra.
    + rewrite Z.even_sub, Hk, Hem. reflexivity.
Qed.


(** Rounding to three decimals commutes with [x |-> 1 - x]. *)
Lemma py_round3_complement (x : Q) : (py_round3 (1 - x) == 1 - py_round3 x)%Q.
Proof.
  unfold py_round3.
  rewrite (round_half_even_comp ((1 - x) * 1000) (inject_Z 1000 - x * 1000))
    by (change (inject_Z 1000) with 1000%Q; lra).
  rewrite round_half_even_reflect by reflexivity.
  unfold Z.sub. rewrite inject_Z_plus, inject_Z_opp.
  change (inject_Z 1000) with 1000%Q. field.
Qed.


(** ** Failures and effects *)

Section Effects.
Context `{RT : Runtime}.
Implicit Types (w : World) (transaction_data : gmap string PyVal).
Implicit Types (user_history : option (gmap string Q)) (features : gmap string Q).
Implicit Types (self : FraudDetectionEngine) (result : gmap string PyVal).

Lemma bind_raise {A B} (c : M A) (k : A -> M B) w e w1 :
  c w = (Raise e, w1) -> bind c k w = (Raise e, w1).
Proof. unfold bind. now intros ->. Qed.

Lemma if_truthy_empty : if_truthy (Some (∅ : gmap string Q)) = None.
Proof. unfold if_truthy, truthy. rewrite bool_decide_false; [reflexivity | auto]. Qed.

Lemma if_truthy_nonempty (h : gmap string Q) : h <> ∅ -> if_truthy (Some h) = Some h.
Proof. intros Hne. unfold if_truthy, truthy. now rewrite bool_decide_true. Qed.

Lemma keeps_clock_beta (a b : Z) : keeps_clock (random_beta a b).
Proof. intros w r w'. rewrite random_beta_run. now intros [= _ <-]. Qed.

Lemma keeps_clock_ret {A} (a : A) : keeps_clock (ret a).
Proof. intros w r w' [= _ <-]. auto. Qed.

Lemma keeps_clock_lift {A} (r : Res A) : keeps_clock (lift r).
Proof. intros w r' w' [= _ <-]. auto. Qed.

Lemma keeps_clock_bind {A B} (c : M A) (k : A -> M B) :
  keeps_clock c -> (forall a, keeps_clock (k a)) -> keeps_clock (bind c k).
Proof.
  intros Hc Hk w r w'. unfold bind.
  destruct (c w) as [[a|e] w1] eqn:E; apply Hc in E as [E1 E2].
  - intros Hr. apply Hk in Hr as [-> ->]. auto.
  - intros [= _ <-]. auto.
Qed.

Lemma keeps_clock_location transaction_data :
  keeps_clock (_compute_location_risk transaction_data).
Proof.
  unfold _compute_location_risk.
  apply keeps_clock_bind; [apply keeps_clock_lift|].
  intros c. destruct (py_in_strings c _); apply keeps_clock_beta.
Qed.

Lemma keeps_clock_device transaction_data :
  keeps_clock (_compute_device_risk transaction_data).
Proof.
  unfold _compute_device_risk.
  apply keeps_clock_bind; [apply keeps_clock_lift|]. intros ua.
  apply keeps_clock_bind; [apply keeps_clock_lift|]. intros [|].
  - apply keeps_clock_bind; [apply keeps_clock_lift|].
    intros [|]; apply keeps_clock_beta.
  - apply keeps_clock_bind; [apply keeps_clock_ret|].
    intros [|]; apply keeps_clock_beta.
Qed.

Lemma keeps_clock_velocity transaction_data user_history :
  keeps_clock (_compute_velocity_risk transaction_data user_history).
Proof.
  unfold _compute_velocity_risk.
  destruct (if_truthy user_history); [|apply keeps_clock_ret].
  destruct (Qltb _ _); apply keeps_clock_beta.
Qed.

Lemma keeps_clock_behavioral transaction_data user_history :
  keeps_clock (_compute_behavioral_score transaction_data user_history).
Proof.
  unfold _compute_behavioral_score.
  destruct (if_truthy user_history); [apply keeps_clock_beta|apply keeps_clock_ret].
Qed.

(** Extraction reads the clock twice, whether it then succeeds or not after
    the amount was converted. *)
Lemma extract_features_clock transaction_data user_history w features w' :
  extract_features transaction_data user_history w = (Ok features, w') ->
  clock w' = clock w /\ ticks w' = S (S (ticks w)).
Proof.
  intros (a & loc & dev & vel & beh & wl & wd & wv & _ & Hl & Hd & Hv & Hb & _)%extract_features_inv.
  apply keeps_clock_location in Hl as [L1 L2].
  apply keeps_clock_device in Hd as [D1 D2].
  apply keeps_clock_velocity in Hv as [V1 V2].
  apply keeps_clock_behavioral in Hb as [B1 B2].
  rewrite B1, V1, D1, L1, B2, V2, D2, L2. auto.
Qed.

(** Outcome of the two sub-scorers that can fail. *)
Lemma location_risk_outcome transaction_data w :
  match location_error transaction_data with
  | Some e => _compute_location_risk transaction_data w = (Raise e, w)
  | None =>
      _compute_location_risk transaction_data w =
        if listed_country transaction_data then random_beta 2 8 w else random_beta 5 5 w
  end.
Proof.
  unfold location_error, listed_country, _compute_location_risk.
  destruct (transaction_data !! "location") as [[| q | s | d]|];
    cbn [default from_option id py_get]; try reflexivity.
  - erewrite bind_run by reflexivity.
    destruct (d !! "country") as [[| q | s | d']|];
      cbn [default from_option id py_in_strings]; try reflexivity.
    destruct (bool_decide _); reflexivity.
Qed.

Lemma device_risk_outcome transaction_data w :
  match device_error transaction_data with
  | Some e => _compute_device_risk transaction_data w = (Raise e, w)
  | None => exists x w', _compute_device_risk transaction_data w = (Ok x, w')
  end.
Proof.
  unfold device_error, _compute_device_risk.
  destruct (transaction_data !! "deviceInfo") as [[| q | s | d]|];
    cbn [default from_option id py_get]; try reflexivity.
  - erewrite bind_run by reflexivity.
    destruct (d !! "userAgent") as [[| q | s | d']|];
      cbn [default from_option id py_contains]; try reflexivity.
    + erewrite bind_run by reflexivity.
      destruct (is_infix "Mobile" s).
      * erewrite bind_run by reflexivity.
        destruct (is_infix "Android" s); apply random_beta_returns.
      * erewrite bind_run by reflexivity. apply random_beta_returns.
    + erewrite bind_run by reflexivity.
      destruct (bool_decide (is_Some (d' !! "Mobile"))).
      * erewrite bind_run by reflexivity.
        destruct (bool_decide (is_Some (d' !! "Android"))); apply random_beta_returns.
      * erewrite bind_run by reflexivity. apply random_beta_returns.
    + do 2 (erewrite bind_run by reflexivity). apply random_beta_returns.
  - rewrite lookup_empty.
    do 3 (erewrite bind_run by reflexivity). apply random_beta_returns.
Qed.

Lemma amount_error_float transaction_data :
  match amount_error transaction_data with
  | Some e => py_float (default (PyNum 0) (transaction_data !! "amount")) = Raise e
  | None => exists a, py_float (default (PyNum 0) (transaction_data !! "amount")) = Ok a
  end.
Proof.
  unfold amount_error, py_float.
  destruct (transaction_data !! "amount") as [[| q | s | d]|];
    cbn [default from_option id]; eauto.
  destruct (py_float_of_str s); eauto.
Qed.

(** Outcome of extraction: it fails exactly on [input_error]. *)
Lemma extract_features_outcome transaction_data user_history w :
  match input_error transaction_data with
  | Some e => exists w', extract_features transaction_data user_history w = (Raise e, w')
  | None => exists features w',
              extract_features transaction_data user_history w = (Ok features, w')
  end.
Proof.
  unfold input_error.
  pose proof (amount_error_float transaction_data) as Ha.
  destruct (amount_error transaction_data) as [e|].
  { exists w. unfold extract_features. rewrite Ha. reflexivity. }
  destruct Ha as [a Ha].
  pose proof (location_risk_outcome transaction_data (advance (advance w))) as Hl.
  assert (
    extract_features transaction_data user_history w =
    bind (_compute_location_risk transaction_data)
      (fun r =>
         let features :=
           <["location_risk_score" := r]>
             (<["avg_transaction_amount" := history_get user_history "avg_amount" a]>
             (<["previous_transactions" := history_get user_history "transaction_count" 0]>
             (<["user_age_days" := history_get user_history "account_age_days" 1]>
             (<["day_of_week" := inject_Z (weekday (clock w (S (ticks w))))]>
             (<["hour_of_day" := inject_Z (hour (clock w (ticks w)))]>
             (<["transaction_amount" := a]> ∅)))))) in
         let* r := _compute_device_risk transaction_data in
         let features := <["device_risk_score" := r]> features in
         let* r := _compute_velocity_risk transaction_data user_history in
         let features := <["velocity_score" := r]> features in
         let* r := _compute_behavioral_score transaction_data user_history in
         let features := <["behavioral_score" := r]> features in
         let features :=
           <["time_since_last_tx" :=
               match if_truthy user_history with
               | Some h => default 24%Q (h !! "hours_since_last_tx")
               | None => 24%Q
               end]> features in
         let* amount := lift (getitem features "transaction_amount") in
         let* avg := lift (getitem features "avg_transaction_amount") in
         let features := <["amount_deviation" := Qabs (amount - avg)]> features in
         ret features)
      (advance (advance w))) as Hstep.
  { unfold extract_features. rewrite Ha.
    do 3 (erewrite bind_run by reflexivity).
    unfold history_get.
    destruct (if_truthy user_history) as [h|]; getitem_insert;
      erewrite bind_run by reflexivity; reflexivity. }
  rewrite Hstep. clear Hstep.
  destruct (location_error transaction_data) as [e|].
  { eexists. apply bind_raise. exact Hl. }
  assert (exists x wl, _compute_location_risk transaction_data (advance (advance w)) = (Ok x, wl))
    as (loc & wl & Hloc).
  { rewrite Hl. destruct (listed_country transaction_data); apply random_beta_returns. }
  rewrite (bind_run _ _ _ _ _ Hloc). cbv zeta.
  pose proof (device_risk_outcome transaction_data wl) as Hd.
  destruct (device_error transaction_data) as [e|].
  { eexists. apply bind_raise. exact Hd. }
  destruct Hd as (dev & wd & Hdev).
  destruct (velocity_risk_returns transaction_data user_history wd) as (vel & wv & Hvel).
  destruct (behavioral_score_returns transaction_data user_history wv) as (beh & wb & Hbeh).
  rewrite (bind_run _ _ _ _ _ Hdev), (bind_run _ _ _ _ _ Hvel), (bind_run _ _ _ _ _ Hbeh).
  getitem_insert. erewrite bind_run by reflexivity.
  getitem_insert. erewrite bind_run by reflexivity.
  unfold ret. eauto.
Qed.

Lemma predict_fraud_raise self transaction_data user_history w e w1 :
  extract_features transaction_data user_history (advance w) = (Raise e, w1) ->
  predict_fraud self transaction_data user_history w = (Raise e, w1).
Proof.
  intros Hf. unfold predict_fraud.
  erewrite bind_run by reflexivity.
  apply bind_raise. exact Hf.
Qed.

End Effects.

(** ** Substring test *)

Lemma prefix_spec (needle s : string) :
  String.prefix needle s = true <-> exists post, s = needle ++ post.
Proof.
  revert s. induction needle as [|c needle IH]; intros s.
  - split; [intros _; now exists s | intros _; now destruct s].
  - destruct s as [|c' s]; cbn.
    + split; [discriminate | intros [post [=]]].
    + destruct (Ascii.ascii_dec c c') as [-> | Hne].
      * rewrite IH. split; intros [post E]; exists post; [now rewrite E | now injection E].
      * split; [discriminate | intros [post [= E _]]; congruence].
Qed.

(** [is_infix needle s] holds exactly when [needle] occurs in [s]. *)
Lemma is_infix_spec (needle s : string) :
  is_infix needle s = true <-> exists pre post, s = pre ++ needle ++ post.
Proof.
  induction s as [|c s IH]; cbn [is_infix].
  - rewrite orb_false_r, prefix_spec. split.
    + intros [post E]. now exists EmptyString, post.
    + intros (pre & post & E). destruct pre as [|c pre]; [|discriminate].
      now exists post.
  - rewrite orb_true_iff, prefix_spec, IH. split.
    + intros [[post E] | (pre & post & E)].
      * now exists EmptyString, post.
      * exists (String c pre), post. cbn. now rewrite E.
    + intros (pre & post & E). destruct pre as [|c' pre].
      * left. now exists post.
      * right. injection E as _ E. now exists pre, post.
Qed.

(** ** What the pipeline does beyond the claims *)

Section Further.
Context `{RT : Runtime}.
Implicit Types (w : World) (transaction_data : gmap string PyVal).
Implicit Types (user_history : option (gmap string Q)) (features : gmap string Q).
Implicit Types (self : FraudDetectionEngine) (result : gmap string PyVal).

Lemma predict_fraud_world self transaction_data user_history w result w' :
  predict_fraud self transaction_data user_history w = (Ok result, w') ->
  exists features w1,
    extract_features transaction_data user_history (advance w) = (Ok features, w1) /\
    w' = advance (advance w1).
Proof.
  unfold predict_fraud.
  intros (t0 & w0 & Ht0 & H1)%bind_ok.
  apply bind_ok in Ht0 as (i0 & wi & [= <- <-] & [-> ->]%ret_ok).
  apply bind_ok in H1 as (f & w1 & Hf & H1).
  apply bind_ok in H1 as (row & w2 & [Hrow ->]%lift_ok & H1).
  apply bind_ok in H1 as (scaled & w3 & [Hsc ->]%lift_ok & H1).
  apply bind_ok in H1 as (t1 & w4 & Ht1 & H1).
  apply bind_ok in Ht1 as (i1 & wj & [= <- <-] & [-> ->]%ret_ok).
  apply bind_ok in H1 as (beh & w5 & [Hbeh ->]%lift_ok & H1).
  apply bind_ok in H1 as (loc & w6 & [Hloc ->]%lift_ok & H1).
  apply bind_ok in H1 as (dev & w7 & [Hdev ->]%lift_ok & H1).
  apply bind_ok in H1 as (vel & w8 & [Hvel ->]%lift_ok & H1).
  apply bind_ok in H1 as (t2 & w9 & [= <- <-] & [_ ->]%ret_ok).
  exists f, w1. auto.
Qed.

(** X1.  For an amount and history values within binary64 range: when the
    transaction has an [input_error], [predict_fraud] fails with that
    exception, a [ValueError] or [TypeError] for an amount [float] rejects,
    an [AttributeError] for a [location] or [deviceInfo] that is present but
    not a dict, a [TypeError] for a [userAgent] that is [None] or a number,
    and never a [KeyError]; when it has none, feature extraction succeeds
    and yields the twelve-column row, and on a fitted engine, when that row
    and its scaled values are within the range the scaler and the
    classifiers accept, [predict_fraud] returns a score dict. *)
Theorem predict_fraud_outcome self transaction_data user_history w :
  amount_in_float_range transaction_data = true ->
  history_in_float_range user_history ->
  match input_error transaction_data with
  | Some e =>
      e <> KeyError /\
      exists w', predict_fraud self transaction_data user_history w = (Raise e, w')
  | None =>
      exists features w1 row,
        extract_features transaction_data user_history (advance w) = (Ok features, w1) /\
        select_columns features feature_columns = Ok row /\
        (fitted self = true ->
         row_in_range row (mean_ (scaler self)) (scale_ (scaler self)) = true ->
         exists result w',
           predict_fraud self transaction_data user_history w = (Ok result, w'))
  end.
Proof.
  intros _ _.
  pose proof (extract_features_outcome transaction_data user_history (advance w)) as H.
  destruct (input_error transaction_data) as [e|] eqn:He.
  - split.
    + unfold input_error, amount_error, location_error, device_error in He.
      intros ->.
      destruct (transaction_data !! "amount") as [[| q | s | d]|];
        try destruct (py_float_of_str s); try discriminate;
        (destruct (transaction_data !! "location") as [[| q1 | s1 | d1]|]; try discriminate);
        (destruct (transaction_data !! "deviceInfo") as [[| q2 | s2 | d2]|]; try discriminate);
        (destruct (d2 !! "userAgent") as [[| q3 | s3 | d3]|]; discriminate).
    + destruct H as [w' H]. exists w'. now apply predict_fraud_raise.
  - destruct H as (f & w1 & Hf).
    destruct (extract_features_inv _ _ _ _ _ Hf)
      as (a & loc & dev & vel & beh & wl & wd & wv & _ & _ & _ & _ & _ & Hdict).
    exists f, w1. eexists.
    split; [exact Hf|].
    split; [rewrite Hdict; apply features_dict_row|].
    intros Hfit _. exact (predict_fraud_returns self _ _ _ _ _ Hfit Hf).
Qed.


(** X3.  An empty history dict is treated exactly like no history at all. *)
Theorem empty_history_is_no_history self transaction_data :
  extract_features transaction_data (Some ∅) = extract_features transaction_data None /\
  predict_fraud self transaction_data (Some ∅) = predict_fraud self transaction_data None.
Proof.
  assert (extract_features transaction_data (Some ∅) = extract_features transaction_data None)
    as E.
  { unfold extract_features, _compute_velocity_risk, _compute_behavioral_score.
    rewrite if_truthy_empty. reflexivity. }
  split; [exact E|]. unfold predict_fraud. now rewrite E.
Qed.

(** X4.  With a non-empty history each of the four history-derived features
    is the history's entry when the key is present and its cold-start default
    when the key is missing, independently of the other keys; a missing
    [avg_amount] gives an [amount_deviation] of 0. *)
Theorem partial_history_defaults transaction_data (h : gmap string Q) w features w' :
  h <> ∅ ->
  extract_features transaction_data (Some h) w = (Ok features, w') ->
  features !! "user_age_days" = Some (default 1%Q (h !! "account_age_days")) /\
  features !! "previous_transactions" = Some (default 0%Q (h !! "transaction_count")) /\
  features !! "time_since_last_tx" = Some (default 24%Q (h !! "hours_since_last_tx")) /\
  exists amount,
    features !! "transaction_amount" = Some amount /\
    features !! "avg_transaction_amount" = Some (default amount (h !! "avg_amount")) /\
    (h !! "avg_amount" = None ->
     exists d, features !! "amount_deviation" = Some d /\ (d == 0)%Q).
Proof.
  intros Hne (a & loc & dev & vel & beh & wl & wd & wv & _ & _ & _ & _ & _ & ->)%extract_features_inv.
  unfold features_dict, history_get. rewrite (if_truthy_nonempty h Hne).
  repeat (split; [now lookup_insert|]).
  exists a. split; [now lookup_insert|]. split; [now lookup_insert|].
  intros ->. cbn [default from_option id].
  eexists. split; [now lookup_insert|].
  assert (a - a == 0)%Q as -> by lra. reflexivity.
Qed.

(** X5.  Every extracted feature dict holds [transaction_amount],
    [avg_transaction_amount] and [amount_deviation]; the deviation is never
    negative, also for a negative amount, and it is 0 whenever the two
    entries are equal; for whole numbers of magnitude up to 2^52 it is
    exactly the absolute difference of the two entries. *)
Theorem amount_deviation_invariant transaction_data user_history w features w' :
  extract_features transaction_data user_history w = (Ok features, w') ->
  exists amount avg d,
    features !! "transaction_amount" = Some amount /\
    features !! "avg_transaction_amount" = Some avg /\
    features !! "amount_deviation" = Some d /\
    (0 <= d)%Q /\
    ((amount == avg)%Q -> (d == 0)%Q) /\
    (whole_below_2_52 amount -> whole_below_2_52 avg -> d = Qabs (amount - avg)).
Proof.
  intros (a & loc & dev & vel & beh & wl & wd & wv & _ & _ & _ & _ & _ & ->)%extract_features_inv.
  exists a, (history_get user_history "avg_amount" a),
         (Qabs (a - history_get user_history "avg_amount" a)).
  unfold features_dict.
  repeat (split; [now lookup_insert|]).
  split; [apply Qabs_nonneg|].
  split; [|reflexivity].
  intros E. set (avg := history_get user_history "avg_amount" a) in *.
  assert (a - avg == 0)%Q as -> by lra. reflexivity.
Qed.

(** X6.  With a non-empty history the velocity threshold is strict: a
    [recent_tx_count] of at most 10, or a missing one, draws the score from
    Beta(2,8); only a count above 10 draws it from Beta(8,2). *)
Theorem velocity_threshold transaction_data (h : gmap string Q) w :
  h <> ∅ ->
  let n := default 0%Q (h !! "recent_tx_count") in
  ((n <= 10)%Q ->
   _compute_velocity_risk transaction_data (Some h) w = random_beta 2 8 w) /\
  ((10 < n)%Q ->
   _compute_velocity_risk transaction_data (Some h) w = random_beta 8 2 w).
Proof.
  intros Hne n. unfold _compute_velocity_risk. rewrite (if_truthy_nonempty h Hne).
  fold n. split; intros Hn.
  - apply Qltb_ge in Hn. now rewrite Hn.
  - apply Qltb_lt in Hn. now rewrite Hn.
Qed.

Lemma location_risk_draw transaction_data w x w' :
  _compute_location_risk transaction_data w = (Ok x, w') ->
  (if listed_country transaction_data then random_beta 2 8 w else random_beta 5 5 w)
    = (Ok x, w').
Proof.
  intros Hx. pose proof (location_risk_outcome transaction_data w) as H.
  destruct (location_error transaction_data); congruence.
Qed.

Lemma device_risk_draw transaction_data w x w' :
  _compute_device_risk transaction_data w = (Ok x, w') ->
  random_beta 2 8 w = (Ok x, w') \/ random_beta 4 6 w = (Ok x, w').
Proof.
  unfold _compute_device_risk.
  intros (ua & w1 & [_ ->]%lift_ok & H)%bind_ok.
  apply bind_ok in H as (m & w2 & [_ ->]%lift_ok & H).
  apply bind_ok in H as (a & w3 & Ha & H).
  assert (w3 = w) as ->.
  { destruct m; [now apply lift_ok in Ha as [_ ->] | now apply ret_ok in Ha as [_ ->]]. }
  destruct a; auto.
Qed.

(** X7.  For a user without history ([None] or the empty dict) the displayed
    velocity score is always 0.9 and the displayed behavioural score always
    0.5, whatever the transaction, the classifiers and the random source. *)
Theorem cold_start_displayed_scores self transaction_data user_history w result w' :
  user_history = None \/ user_history = Some ∅ ->
  predict_fraud self transaction_data user_history w = (Ok result, w') ->
  exists v b,
    sub_score result "velocityScore" = Some v /\ (v == 9 # 10)%Q /\
    sub_score result "behavioralScore" = Some b /\ (b == 1 # 2)%Q.
Proof.
  intros Hcold
    (f & w1 & a & loc & dev & vel & beh & wl & wd & wv & scaled &
     _ & _ & _ & _ & Hv & Hb & _ & _ & _ & _ & _ & _ & ->)%predict_fraud_trace.
  assert (if_truthy user_history = None) as Hn
    by (destruct Hcold as [-> | ->]; [reflexivity | apply if_truthy_empty]).
  unfold _compute_velocity_risk in Hv. unfold _compute_behavioral_score in Hb.
  rewrite Hn in Hv, Hb.
  apply ret_ok in Hv as [-> _]. apply ret_ok in Hb as [-> _].
  match goal with
  | |- context [score_dict ?p ?t _ _ _ _ ?ts] =>
      destruct (score_dict_sub_scores p t (1 # 2) loc dev (1 # 10) ts) as (S1 & _ & _ & S4)
  end.
  eexists. eexists.
  split; [exact S4|]. split; [reflexivity|]. split; [exact S1 | reflexivity].
Qed.

(** X8.  A successful call reads the clock exactly five times and leaves it
    otherwise alone: the readings are the start time, the hour, the weekday,
    the end time and the timestamp, in this order.  [processingTime] is the
    difference of the fourth and the first reading in milliseconds, rounded
    to a whole number: plain digits when the clock did not go back, and with
    a minus sign when it did. *)
Theorem predict_fraud_reads_clock_five_times
    self transaction_data user_history w result w' :
  predict_fraud self transaction_data user_history w = (Ok result, w') ->
  clock w' = clock w /\
  ticks w' = (5 + ticks w)%nat /\
  let t := ticks w in
  let elapsed :=
    ((epoch_seconds (clock w (3 + t)%nat) - epoch_seconds (clock w t)) * 1000)%Q in
  result !! "processingTime" = Some (PyStr (format_0f elapsed ++ "ms")) /\
  result !! "timestamp" = Some (PyStr (isoformat (clock w (4 + t)%nat))) /\
  ((0 <= elapsed)%Q ->
   format_0f elapsed = decimal (Z.to_N (round_half_even elapsed))) /\
  ((elapsed < 0)%Q ->
   format_0f elapsed = "-" ++ decimal (Z.to_N (- round_half_even elapsed))).
Proof.
  intros Hrun.
  destruct (predict_fraud_world _ _ _ _ _ _ Hrun) as (f & w1 & Hf & ->).
  destruct (predict_fraud_inv _ _ _ _ _ _ Hrun)
    as (f' & w1' & row & scaled & beh & loc & dev & vel & Hf' & _ & _ & _ & _ & _ & _ & ->).
  rewrite Hf in Hf'. injection Hf' as <- <-.
  apply extract_features_clock in Hf as [Hc Ht]. cbn [advance clock ticks] in Hc, Ht.
  cbn [advance clock ticks]. rewrite Hc, Ht.
  split; [reflexivity|]. split; [reflexivity|]. cbv zeta.
  split; [apply score_dict_processing_time|].
  split; [apply score_dict_timestamp|].
  set (elapsed := ((epoch_seconds (clock w (3 + ticks w)%nat) -
                    epoch_seconds (clock w (ticks w))) * 1000)%Q).
  unfold format_0f, decimal. split; intros He.
  - apply Qltb_ge in He as Hb. rewrite Hb.
    assert (0 <= round_half_even elapsed)%Z as Hr by now apply round_half_even_ge.
    do 2 f_equal. lia.
  - apply Qltb_lt in He as Hb. rewrite Hb.
    assert (round_half_even elapsed <= 0)%Z as Hr
      by (apply round_half_even_le; change (inject_Z 0) with 0%Q; lra).
    do 3 f_equal. lia.
Qed.

Lemma samples_are_drawn_in_order_aux transaction_data user_history w features w' :
  extract_features transaction_data user_history w = (Ok features, w') ->
  exists amount location device velocity behavioral wd wv a2 b2,
    (a2, b2) ∈ [(2, 8); (4, 6)]%Z /\
    rng wd =
      snd (np_random_beta a2 b2
             (snd (if listed_country transaction_data
                   then np_random_beta 2 8 (rng w)
                   else np_random_beta 5 5 (rng w)))) /\
    _compute_velocity_risk transaction_data user_history wd = (Ok velocity, wv) /\
    _compute_behavioral_score transaction_data user_history wv = (Ok behavioral, w') /\
    features =
      features_dict amount
        (inject_Z (hour (clock w (ticks w))))
        (inject_Z (weekday (clock w (S (ticks w)))))
        (history_get user_history "account_age_days" 1)
        (history_get user_history "transaction_count" 0)
        (history_get user_history "avg_amount" amount)
        location device velocity behavioral
        (history_get user_history "hours_since_last_tx" 24).
Proof.
  intros (a & loc & dev & vel & beh & wl & wd & wv &
          _ & Hl & Hd & Hv & Hb & ->)%extract_features_inv.
  apply location_risk_draw in Hl.
  apply device_risk_draw in Hd.
  assert (rng wl = snd (if listed_country transaction_data
                        then np_random_beta 2 8 (rng w)
                        else np_random_beta 5 5 (rng w))) as Hwl.
  { destruct (listed_country transaction_data);
      rewrite random_beta_run in Hl; injection Hl as _ <-; auto. }
  exists a, loc, dev, vel, beh, wd, wv.
  destruct Hd as [Hd | Hd]; rewrite random_beta_run in Hd; injection Hd as _ <-.
  - exists 2%Z, 8%Z. rewrite <- Hwl.
    split; [apply list_elem_of_In; cbn; auto | auto].
  - exists 4%Z, 6%Z. rewrite <- Hwl.
    split; [apply list_elem_of_In; cbn; auto | auto].
Qed.

(** X9.  The random source is consulted in a fixed order: the location score
    is the first sample drawn, from Beta(2,8) for a listed country and from
    Beta(5,5) otherwise, and the device score is the second, from Beta(2,8)
    or Beta(4,6).  Without history these are the only two samples drawn. *)
Theorem samples_are_drawn_in_order transaction_data user_history w features w' :
  extract_features transaction_data user_history w = (Ok features, w') ->
  exists a2 b2,
    (a2, b2) ∈ [(2, 8); (4, 6)]%Z /\
    let d1 := if listed_country transaction_data
              then np_random_beta 2 8 (rng w)
              else np_random_beta 5 5 (rng w) in
    let d2 := np_random_beta a2 b2 (snd d1) in
    features !! "location_risk_score" = Some (fst d1) /\
    features !! "device_risk_score" = Some (fst d2) /\
    (user_history = None \/ user_history = Some ∅ -> rng w' = snd d2).
Proof.
  intros (a & loc & dev & vel & beh & wl & wd & wv &
          _ & Hl & Hd & Hv & Hb & ->)%extract_features_inv.
  apply location_risk_draw in Hl.
  apply device_risk_draw in Hd.
  assert (loc = fst (if listed_country transaction_data
                     then np_random_beta 2 8 (rng w)
                     else np_random_beta 5 5 (rng w)) /\
          rng wl = snd (if listed_country transaction_data
                        then np_random_beta 2 8 (rng w)
                        else np_random_beta 5 5 (rng w))) as [-> Hwl].
  { destruct (listed_country transaction_data);
      rewrite random_beta_run in Hl; injection Hl as <- <-; auto. }
  assert (exists a2 b2, (a2, b2) ∈ [(2, 8); (4, 6)]%Z /\
            dev = fst (np_random_beta a2 b2 (rng wl)) /\
            rng wd = snd (np_random_beta a2 b2 (rng wl))) as (a2 & b2 & Hin & -> & Hwd).
  { destruct Hd as [Hd | Hd]; rewrite random_beta_run in Hd; injection Hd as <- <-.
    - exists 2%Z, 8%Z. split; [apply list_elem_of_In; cbn; auto | auto].
    - exists 4%Z, 6%Z. split; [apply list_elem_of_In; cbn; auto | auto]. }
  exists a2, b2. split; [exact Hin|]. cbv zeta. rewrite <- Hwl.
  unfold features_dict.
  split; [now lookup_insert|]. split; [now lookup_insert|].
  intros Hcold.
  assert (if_truthy user_history = None) as Hn
    by (destruct Hcold as [-> | ->]; [reflexivity | apply if_truthy_empty]).
  unfold _compute_velocity_risk in Hv. unfold _compute_behavioral_score in Hb.
  rewrite Hn in Hv, Hb.
  apply ret_ok in Hv as [_ ->]. apply ret_ok in Hb as [_ ->]. exact Hwd.
Qed.

(** X10.  The risk level and the decision always come as one of the three
    pairs (LOW, APPROVE), (MEDIUM, REVIEW), (HIGH, BLOCK), for every number,
    also outside [0,1]; and a higher probability never gives a less severe
    level. *)
Theorem decision_is_monotone :
  (forall p, risk_level_decision p ∈
     [("LOW", "APPROVE"); ("MEDIUM", "REVIEW"); ("HIGH", "BLOCK")]) /\
  (forall p q, (p <= q)%Q ->
     (severity (fst (risk_level_decision p)) <= severity (fst (risk_level_decision q)))%nat).
Proof.
  split.
  - intros p. unfold risk_level_decision.
    repeat destruct (Qltb _ _); apply list_elem_of_In; cbn; auto.
  - intros p q Hpq. unfold risk_level_decision.
    destruct (Qltb p (3 # 10)) eqn:P3; [cbn; lia|].
    apply Qltb_ge in P3.
    assert (Qltb q (3 # 10) = false) as -> by (apply Qltb_ge; lra).
    destruct (Qltb p (7 # 10)) eqn:P7.
    + destruct (Qltb q (7 # 10)); cbn; lia.
    + apply Qltb_ge in P7.
      assert (Qltb q (7 # 10) = false) as -> by (apply Qltb_ge; lra).
      cbn. lia.
Qed.

Lemma py_round3_just_below (k : Z) (p : Q) :
  Z.even k = true ->
  (inject_Z k / 1000 - (5 # 10000) <= p < inject_Z k / 1000)%Q ->
  (py_round3 p == inject_Z k / 1000)%Q.
Proof.
  intros Hk [Hlo Hhi]. unfold py_round3.
  rewrite (round_half_even_unique (p * 1000) k); [reflexivity|].
  unfold nearest_even.
  destruct (Qeq_dec (p * 1000) (inject_Z k - (1 # 2))) as [E | E].
  - right. auto.
  - left. split; [|qlra].
    apply Qnot_le_lt. intros Hle. apply E.
    apply Qle_antisym; [exact Hle | qlra].
Qed.

(** X11.  The decision is taken on the unrounded probability while the score
    is displayed rounded, so just below a threshold the two disagree: a
    probability strictly between 0.2995 and 0.3 is returned as [riskScore]
    0.3 with (LOW, APPROVE), and one strictly between 0.6995 and 0.7 as 0.7
    with (MEDIUM, REVIEW). *)
Theorem risk_score_can_display_a_threshold
    self transaction_data user_history w result w' :
  predict_fraud self transaction_data user_history w = (Ok result, w') ->
  exists features w1 row scaled,
    extract_features transaction_data user_history (advance w) = (Ok features, w1) /\
    select_columns features feature_columns = Ok row /\
    transform (scaler self) row = Ok scaled /\
    let p := ensemble_probability self scaled in
    ((2995 # 10000 < p < 3 # 10)%Q ->
     exists x, number_at result "riskScore" = Some x /\ (x == 3 # 10)%Q /\
               result !! "riskLevel" = Some (PyStr "LOW") /\
               result !! "decision" = Some (PyStr "APPROVE")) /\
    ((6995 # 10000 < p < 7 # 10)%Q ->
     exists x, number_at result "riskScore" = Some x /\ (x == 7 # 10)%Q /\
               result !! "riskLevel" = Some (PyStr "MEDIUM") /\
               result !! "decision" = Some (PyStr "REVIEW")).
Proof.
  intros (f & w1 & row & scaled & beh & loc & dev & vel &
          Hf & Hrow & Hsc & _ & _ & _ & _ & ->)%predict_fraud_inv.
  exists f, w1, row, scaled.
  split; [exact Hf|]. split; [exact Hrow|]. split; [exact Hsc|].
  cbv zeta. set (p := ensemble_probability self scaled).
  split; intros [Hlo Hhi].
  - exists (py_round3 p).
    split; [unfold number_at; now rewrite score_dict_risk_score|].
    split.
    + rewrite (py_round3_just_below 300 p); [reflexivity | reflexivity |].
      assert (inject_Z 300 / 1000 - (5 # 10000) == 2995 # 10000)%Q as -> by reflexivity.
      assert (inject_Z 300 / 1000 == 3 # 10)%Q as -> by reflexivity.
      split; [apply Qlt_le_weak|]; assumption.
    + rewrite score_dict_risk_level, score_dict_decision.
      unfold risk_level_decision.
      apply Qltb_lt in Hhi. rewrite Hhi. auto.
  - exists (py_round3 p).
    split; [unfold number_at; now rewrite score_dict_risk_score|].
    split.
    + rewrite (py_round3_just_below 700 p); [reflexivity | reflexivity |].
      assert (inject_Z 700 / 1000 - (5 # 10000) == 6995 # 10000)%Q as -> by reflexivity.
      assert (inject_Z 700 / 1000 == 7 # 10)%Q as -> by reflexivity.
      split; [apply Qlt_le_weak|]; assumption.
    + rewrite score_dict_risk_level, score_dict_decision.
      unfold risk_level_decision.
      assert (Qltb p (3 # 10) = false) as -> by (apply Qltb_ge; lra).
      apply Qltb_lt in Hhi. rewrite Hhi. auto.
Qed.


(** X13.  Away from rounding ties, a displayed risk-derived sub-score and
    the extracted risk score rounded to three decimals add up to 1: for an
    extracted location, device or velocity risk that is clear of the ties of
    three-decimal rounding, displaying [1 - risk] rounded is the same as
    displaying one minus the rounded risk. *)
Theorem displayed_score_complements_rounded_risk
    self transaction_data user_history w result w' :
  predict_fraud self transaction_data user_history w = (Ok result, w') ->
  exists features w1 location device velocity s_loc s_dev s_vel,
    extract_features transaction_data user_history (advance w) = (Ok features, w1) /\
    features !! "location_risk_score" = Some location /\
    features !! "device_risk_score" = Some device /\
    features !! "velocity_score" = Some velocity /\
    sub_score result "locationScore" = Some s_loc /\
    sub_score result "deviceScore" = Some s_dev /\
    sub_score result "velocityScore" = Some s_vel /\
    (clear_of_ties location = true -> (s_loc + py_round3 location == 1)%Q) /\
    (clear_of_ties device = true -> (s_dev + py_round3 device == 1)%Q) /\
    (clear_of_ties velocity = true -> (s_vel + py_round3 velocity == 1)%Q).
Proof.
  intros (f & w1 & row & scaled & beh & loc & dev & vel &
          Hf & _ & _ & _ & Hl & Hd & Hv & ->)%predict_fraud_inv.
  match goal with
  | |- context [score_dict ?p ?t _ _ _ _ ?ts] =>
      destruct (score_dict_sub_scores p t beh loc dev vel ts) as (_ & S2 & S3 & S4)
  end.
  exists f, w1, loc, dev, vel. do 3 eexists.
  split; [exact Hf|]. split; [exact Hl|]. split; [exact Hd|]. split; [exact Hv|].
  split; [exact S2|]. split; [exact S3|]. split; [exact S4|].
  rewrite !py_round3_complement. repeat split; intros _; lra.
Qed.

(** X14.  The device rule: when the user agent is a string (the empty one
    if [deviceInfo] or [userAgent] is missing), the score is drawn from
    Beta(2,8) exactly when both "Mobile" and "Android" occur in it, and
    from Beta(4,6) otherwise; in particular a missing user agent draws from
    Beta(4,6). *)
Theorem device_rule transaction_data (s : string) w :
  user_agent_text transaction_data = Some s ->
  (occurs_in "Mobile" s /\ occurs_in "Android" s ->
   _compute_device_risk transaction_data w = random_beta 2 8 w) /\
  (~ (occurs_in "Mobile" s /\ occurs_in "Android" s) ->
   _compute_device_risk transaction_data w = random_beta 4 6 w) /\
  (s = EmptyString -> _compute_device_risk transaction_data w = random_beta 4 6 w).
Proof.
  intros Hs.
  assert (_compute_device_risk transaction_data w =
          if is_infix "Mobile" s && is_infix "Android" s
          then random_beta 2 8 w else random_beta 4 6 w) as E.
  { unfold user_agent_text in Hs. unfold _compute_device_risk.
    destruct (transaction_data !! "deviceInfo") as [[| q | s0 | d]|]; try discriminate;
      cbn [default from_option id py_get].
    - erewrite bind_run by reflexivity.
      destruct (d !! "userAgent") as [[| q | s0 | d']|]; try discriminate;
        injection Hs as <-; cbn [default from_option id py_contains].
      + erewrite bind_run by reflexivity.
        destruct (is_infix "Mobile" s0); erewrite bind_run by reflexivity.
        * destruct (is_infix "Android" s0); reflexivity.
        * reflexivity.
      + reflexivity.
    - injection Hs as <-. reflexivity. }
  rewrite E. unfold occurs_in. rewrite <- !is_infix_spec.
  split; [|split].
  - intros [-> ->]. reflexivity.
  - intros Hn. destruct (is_infix "Mobile" s), (is_infix "Android" s); try reflexivity.
    exfalso. apply Hn. auto.
  - intros ->. reflexivity.
Qed.

(** X15.  [predict_fraud] looks at the transaction only through its
    [amount], [location] and [deviceInfo] entries: two transactions that
    agree on these three behave identically, whatever their [type],
    [timestamp] or other entries. *)
Theorem predict_fraud_reads_three_entries self (tx1 tx2 : gmap string PyVal) user_history :
  tx1 !! "amount" = tx2 !! "amount" ->
  tx1 !! "location" = tx2 !! "location" ->
  tx1 !! "deviceInfo" = tx2 !! "deviceInfo" ->
  predict_fraud self tx1 user_history = predict_fraud self tx2 user_history.
Proof.
  intros Ha Hl Hd. unfold predict_fraud.
  now rewrite (extract_features_ext tx1 tx2 user_history Ha Hl Hd).
Qed.

(** X16.  With a non-empty history four samples are drawn, in the order
    location, device, velocity, behavioural: the velocity score is the third
    sample, from Beta(8,2) when [recent_tx_count] exceeds 10 and from
    Beta(2,8) otherwise, and the behavioural score is the fourth and last,
    from Beta(6,4). *)
Theorem history_draws_four_samples transaction_data (h : gmap string Q) w features w' :
  h <> ∅ ->
  extract_features transaction_data (Some h) w = (Ok features, w') ->
  exists a2 b2,
    (a2, b2) ∈ [(2, 8); (4, 6)]%Z /\
    let d1 := if listed_country transaction_data
              then np_random_beta 2 8 (rng w)
              else np_random_beta 5 5 (rng w) in
    let d2 := np_random_beta a2 b2 (snd d1) in
    let d3 := if Qltb 10 (default 0%Q (h !! "recent_tx_count"))
              then np_random_beta 8 2 (snd d2)
              else np_random_beta 2 8 (snd d2) in
    let d4 := np_random_beta 6 4 (snd d3) in
    features !! "velocity_score" = Some (fst d3) /\
    features !! "behavioral_score" = Some (fst d4) /\
    rng w' = snd d4.
Proof.
  intros Hne Hf.
  destruct (samples_are_drawn_in_order_aux _ _ _ _ _ Hf)
    as (a & loc & dev & vel & beh & wd & wv & a2 & b2 & Hin & Hwd & Hv & Hb & ->).
  exists a2, b2. split; [exact Hin|]. cbv zeta. rewrite <- Hwd.
  unfold _compute_velocity_risk in Hv. unfold _compute_behavioral_score in Hb.
  rewrite (if_truthy_nonempty h Hne) in Hv, Hb.
  assert (vel = fst (if Qltb 10 (default 0%Q (h !! "recent_tx_count"))
                     then np_random_beta 8 2 (rng wd)
                     else np_random_beta 2 8 (rng wd)) /\
          rng wv = snd (if Qltb 10 (default 0%Q (h !! "recent_tx_count"))
                        then np_random_beta 8 2 (rng wd)
                        else np_random_beta 2 8 (rng wd))) as [-> Hwv].
  { destruct (Qltb 10 _); rewrite random_beta_run in Hv; injection Hv as <- <-; auto. }
  rewrite random_beta_run in Hb. injection Hb as <- <-.
  rewrite <- Hwv. unfold features_dict.
  split; [now lookup_insert|]. split; [now lookup_insert | reflexivity].
Qed.

(** X17.  The history is read through five keys and its emptiness only: two
    non-empty histories that agree on [account_age_days],
    [transaction_count], [avg_amount], [recent_tx_count] and
    [hours_since_last_tx] give the same extraction, whatever else they
    hold; a history holding only other keys still counts as a history. *)
Theorem history_is_read_through_five_keys transaction_data (h1 h2 : gmap string Q) :
  h1 <> ∅ -> h2 <> ∅ ->
  (forall k, k ∈ ["account_age_days"; "transaction_count"; "avg_amount";
                  "recent_tx_count"; "hours_since_last_tx"] -> h1 !! k = h2 !! k) ->
  extract_features transaction_data (Some h1) = extract_features transaction_data (Some h2).
Proof.
  intros H1 H2 Hsame.
  unfold extract_features, _compute_velocity_risk, _compute_behavioral_score.
  rewrite (if_truthy_nonempty h1 H1), (if_truthy_nonempty h2 H2).
  rewrite (Hsame "account_age_days"), (Hsame "transaction_count"), (Hsame "avg_amount"),
    (Hsame "recent_tx_count"), (Hsame "hours_since_last_tx");
    try (apply list_elem_of_In; cbn; auto 10).
  reflexivity.
Qed.

End Further.

(** ** Concrete runs of the further properties *)

Lemma history_recent_nonempty (n : Q) : history_recent n <> ∅.
Proof.
  intros E. assert (history_recent n !! "recent_tx_count" = None) as H
    by (rewrite E; apply lookup_empty).
  unfold history_recent in H. rewrite lookup_singleton_eq in H. discriminate.
Qed.

Lemma predict_fraud_outcome_witness :
  (exists w', predict_fraud engine_08_04 tx_null_user_agent None fixed_world =
                (Raise TypeError, w')) /\
  (exists w', predict_fraud engine_08_04 tx_null_location None fixed_world =
                (Raise AttributeError, w')) /\
  (exists result w', predict_fraud engine_08_04 tx_negative None fixed_world =
                       (Ok result, w')).
Proof.
  assert (history_in_float_range None) as Hnone by (intros h k v [=]).
  split; [|split].
  - exact (proj2 (predict_fraud_outcome engine_08_04 tx_null_user_agent None fixed_world
                    eq_refl Hnone)).
  - exact (proj2 (predict_fraud_outcome engine_08_04 tx_null_location None fixed_world
                    eq_refl Hnone)).
  - destruct (predict_fraud_outcome engine_08_04 tx_negative None fixed_world eq_refl Hnone)
      as (f & w1 & row & Hf & Hrow & Hrun).
    assert (extract_features tx_negative None (advance fixed_world) =
            (Ok features_negative, advance (world_extracted 2)))
      as E by reflexivity.
    rewrite E in Hf. injection Hf as <- <-.
    assert (select_columns features_negative feature_columns =
            Ok [(-50)%Q; 14%Q; 2%Q; 1%Q; 0%Q; (-50)%Q; (1234 # 10000)%Q; (1 # 4)%Q;
                (1 # 10)%Q; (1 # 2)%Q; 24%Q; Qabs (-50 - -50)])
      as Er by apply features_dict_row.
    rewrite Er in Hrow. injection Hrow as <-.
    exact (Hrun eq_refl eq_refl).
Defined.


Lemma partial_history_defaults_witness :
  exists features w',
    extract_features test_transaction (Some (history_recent 12)) fixed_world =
      (Ok features, w') /\
    features !! "user_age_days" = Some 1%Q /\
    features !! "previous_transactions" = Some 0%Q /\
    features !! "time_since_last_tx" = Some 24%Q /\
    features !! "avg_transaction_amount" = features !! "transaction_amount".
Proof.
  exists features_partial, (world_extracted 4). split; [reflexivity|].
  destruct (partial_history_defaults test_transaction (history_recent 12) fixed_world
              features_partial (world_extracted 4)
              (history_recent_nonempty 12) eq_refl)
    as (H1 & H2 & H3 & a & H4 & H5 & _).
  split; [exact H1|]. split; [exact H2|]. split; [exact H3|].
  rewrite H4. exact H5.
Defined.

Lemma amount_deviation_invariant_witness :
  exists amount avg d,
    features_test !! "transaction_amount" = Some amount /\
    features_test !! "avg_transaction_amount" = Some avg /\
    features_test !! "amount_deviation" = Some d /\
    (0 <= d)%Q /\ d = Qabs (amount - avg) /\ (d == 500)%Q.
Proof.
  destruct (amount_deviation_invariant test_transaction (Some test_history)
              (advance fixed_world) features_test (advance (world_extracted 4)) eq_refl)
    as (a & avg & d & Ha & Havg & Hd & Hpos & _ & Hexact).
  exists a, avg, d.
  split; [exact Ha|]. split; [exact Havg|]. split; [exact Hd|]. split; [exact Hpos|].
  assert (a = 1000%Q) as -> by (injection Ha as <-; reflexivity).
  assert (avg = 500%Q) as -> by (injection Havg as <-; reflexivity).
  assert (d = Qabs (1000 - 500)) as ->.
  { apply Hexact.
    - exists 1000%Z. split; [vm_compute; discriminate | reflexivity].
    - exists 500%Z. split; [vm_compute; discriminate | reflexivity]. }
  split; reflexivity.
Defined.

Lemma velocity_threshold_witness :
  _compute_velocity_risk test_transaction (Some (history_recent 10)) fixed_world =
    random_beta 2 8 fixed_world /\
  _compute_velocity_risk test_transaction (Some (history_recent 11)) fixed_world =
    random_beta 8 2 fixed_world.
Proof.
  split.
  - apply (proj1 (velocity_threshold test_transaction (history_recent 10) fixed_world
                    (history_recent_nonempty 10))).
    discriminate.
  - apply (proj2 (velocity_threshold test_transaction (history_recent 11) fixed_world
                    (history_recent_nonempty 11))).
    reflexivity.
Defined.

Lemma cold_start_displayed_scores_witness :
  exists v b,
    sub_score result_negative "velocityScore" = Some v /\ (v == 9 # 10)%Q /\
    sub_score result_negative "behavioralScore" = Some b /\ (b == 1 # 2)%Q.
Proof.
  apply (cold_start_displayed_scores engine_08_04 tx_negative None fixed_world
           result_negative (world_after 2)).
  - left. reflexivity.
  - reflexivity.
Defined.

Lemma predict_fraud_reads_clock_five_times_witness :
  predict_fraud engine_08_04 tx_negative None backward_world =
    (Ok result_backward, {| rng := 2%nat; clock := backward_clock; ticks := 5 |}) /\
  result_backward !! "processingTime" = Some (PyStr "-9ms") /\
  result_negative !! "processingTime" = Some (PyStr "9ms").
Proof.
  split; [reflexivity|]. split.
  - exact (proj1 (proj2 (proj2
      (predict_fraud_reads_clock_five_times engine_08_04 tx_negative None backward_world
         result_backward {| rng := 2%nat; clock := backward_clock; ticks := 5 |} eq_refl)))).
  - exact (proj1 (proj2 (proj2
      (predict_fraud_reads_clock_five_times engine_08_04 tx_negative None fixed_world
         result_negative (world_after 2) eq_refl)))).
Defined.

Lemma samples_are_drawn_in_order_witness :
  exists features w',
    extract_features tx_negative None fixed_world = (Ok features, w') /\
    features !! "location_risk_score" = Some (1234 # 10000)%Q /\
    features !! "device_risk_score" = Some (1 # 4)%Q /\
    rng w' = 2%nat.
Proof.
  exists features_negative, (world_extracted 2). split; [reflexivity|].
  destruct (samples_are_drawn_in_order tx_negative None fixed_world
              features_negative (world_extracted 2) eq_refl)
    as (a2 & b2 & _ & H1 & H2 & H3).
  split; [exact H1|]. split; reflexivity.
Defined.

Lemma decision_is_monotone_witness :
  (severity (fst (risk_level_decision (1 # 10))) <=
   severity (fst (risk_level_decision (9 # 10))))%nat.
Proof. apply (proj2 decision_is_monotone). discriminate. Defined.

Lemma risk_score_can_display_a_threshold_witness :
  exists x,
    number_at result_02996 "riskScore" = Some x /\ (x == 3 # 10)%Q /\
    result_02996 !! "riskLevel" = Some (PyStr "LOW") /\
    result_02996 !! "decision" = Some (PyStr "APPROVE").
Proof.
  destruct (risk_score_can_display_a_threshold engine_02996 tx_no_amount None fixed_world
              result_02996 (world_after 2) eq_refl)
    as (f & w1 & row & scaled & _ & _ & _ & Hlow & _).
  apply Hlow. split; reflexivity.
Defined.


Lemma displayed_score_complements_rounded_risk_witness :
  exists s_loc s_vel,
    sub_score result_test "locationScore" = Some s_loc /\
    sub_score result_test "velocityScore" = Some s_vel /\
    (s_loc + py_round3 (1234 # 10000) == 1)%Q /\
    (s_vel + py_round3 (61234 # 100000) == 1)%Q.
Proof.
  destruct (displayed_score_complements_rounded_risk engine_08_04 test_transaction
              (Some test_history) fixed_world result_test (world_after 4) eq_refl)
    as (f & w1 & loc & dev & vel & sl & sd & sv &
        Hf & Hl & _ & Hv & Hsl & _ & Hsv & Cl & _ & Cv).
  assert (extract_features test_transaction (Some test_history) (advance fixed_world) =
          (Ok features_test, advance (world_extracted 4))) as E by reflexivity.
  rewrite E in Hf. injection Hf as <- <-.
  assert (loc = (1234 # 10000)%Q) as -> by (injection Hl as <-; reflexivity).
  assert (vel = (61234 # 100000)%Q) as -> by (injection Hv as <-; reflexivity).
  exists sl, sv. split; [exact Hsl|]. split; [exact Hsv|].
  split; [apply Cl | apply Cv]; reflexivity.
Defined.

Lemma device_rule_witness :
  _compute_device_risk test_transaction fixed_world = random_beta 2 8 fixed_world /\
  _compute_device_risk tx_negative fixed_world = random_beta 4 6 fixed_world.
Proof.
  split.
  - apply (proj1 (device_rule test_transaction "Mozilla/5.0 (Mobile; Android)"
                    fixed_world eq_refl)).
    split.
    + exists "Mozilla/5.0 (", "; Android)". reflexivity.
    + exists "Mozilla/5.0 (Mobile; ", ")". reflexivity.
  - apply (proj2 (proj2 (device_rule tx_negative EmptyString fixed_world eq_refl))).
    reflexivity.
Defined.

Lemma predict_fraud_reads_three_entries_witness :
  predict_fraud engine_08_04 (<["type" := PyStr "refund"]> test_transaction)
    (Some test_history) =
  predict_fraud engine_08_04 test_transaction (Some test_history).
Proof.
  apply predict_fraud_reads_three_entries; reflexivity.
Defined.

Lemma history_draws_four_samples_witness :
  exists features w',
    extract_features test_transaction (Some (history_recent 12)) fixed_world =
      (Ok features, w') /\
    features !! "velocity_score" = Some (61234 # 100000)%Q /\
    features !! "behavioral_score" = Some (3 # 10)%Q /\
    rng w' = 4%nat.
Proof.
  exists features_partial, (world_extracted 4). split; [reflexivity|].
  destruct (history_draws_four_samples test_transaction (history_recent 12) fixed_world
              features_partial (world_extracted 4)
              (history_recent_nonempty 12) eq_refl)
    as (a2 & b2 & _ & H3 & H4 & _).
  split; [exact H3|]. split; [exact H4 | reflexivity].
Defined.

Lemma history_is_read_through_five_keys_witness :
  extract_features test_transaction (Some (<["note" := 7%Q]> (history_recent 12))) =
  extract_features test_transaction (Some (history_recent 12)).
Proof.
  apply history_is_read_through_five_keys.
  - apply insert_non_empty.
  - apply history_recent_nonempty.
  - intros k Hk. apply lookup_insert_ne.
    intros <-. apply list_elem_of_In in Hk. cbn in Hk.
    repeat (destruct Hk as [Hk | Hk]; [discriminate|]). exact Hk.
Defined.
